(** * scraping-bvl: the BVL ingestion pipeline and its query service

    Two Python programs are embedded here.

    - [Scraper] follows [Scraper/src/bvl_fetcher.py]: the class
      [EnhancedBVLDataFetcher] with [fetch_data], [process_data],
      [save_data] and [run].
    - [BackEnd] follows [BackEnd/src/main.py]: [find_csv_file],
      [CSVDataLoader._load_data], the module-level start-up code and the
      endpoints [health_check], [get_companies] and [get_credicorp_data].

    Python exceptions are values of [Py.exn]; a block that may raise has a
    type [Py.result A]; [try: ... except Exception as e: ...] is
    [Py.try_except]. *)

From Stdlib Require Import QArith.
From stdpp Require Import base decidable option list sorting strings pretty gmap.

Close Scope Q_scope.
Open Scope Z_scope.

(** ** Python exceptions and fallible blocks *)

Module Py.

Inductive exn :=
| KeyError (label : string)
| IndexError
| ValueError (msg : string)
| FileNotFoundError (msg : string)
| PermissionError
| ConnectionError
| HTTPError (status : Z)
| JSONDecodeError
| EmptyDataError
| ParserError
| RetryError
| HTTPException (status_code : Z) (detail : string).

Inductive result (A : Type) :=
| Ok (a : A)
| Raise (e : exn).
Arguments Ok {A} a.
Arguments Raise {A} e.

Definition bind {A B} (m : result A) (k : A → result B) : result B :=
  match m with
  | Ok a => k a
  | Raise e => Raise e
  end.

(** [try: body except Exception as e: handler e].  Every class of [exn]
    derives from [Exception], so the handler sees all of them. *)
Definition try_except {A} (body : result A) (handler : exn → result A)
  : result A :=
  match body with
  | Ok a => Ok a
  | Raise e => handler e
  end.

(** [try: return body except Exception as e: return handler e] *)
Definition try_return {A} (body : result A) (handler : exn → A) : A :=
  match body with
  | Ok a => a
  | Raise e => handler e
  end.

(** [str(e)] for the exceptions whose text reaches a caller. *)
Definition Z_to_string (z : Z) : string := pretty z.

Definition str (e : exn) : string :=
  match e with
  | KeyError l => "'" +:+ l +:+ "'"
  | IndexError => "single positional indexer is out-of-bounds"
  | ValueError m | FileNotFoundError m => m
  | PermissionError => "Permission denied"
  | ConnectionError => "Connection error"
  | HTTPError s => Z_to_string s +:+ " Error"
  | JSONDecodeError => "Expecting value"
  | EmptyDataError => "No columns to parse from file"
  | ParserError => "Error tokenizing data"
  | RetryError => "RetryError"
  | HTTPException s d => Z_to_string s +:+ ": " +:+ d
  end.

End Py.

#[global] Instance result_ret : MRet Py.result := @Py.Ok.
#[global] Instance result_bind : MBind Py.result := λ A B k m, Py.bind m k.

#[global] Instance Q_eq_dec : EqDecision Q.
Proof. solve_decision. Defined.

(** ** The scraper: [Scraper/src/bvl_fetcher.py] *)

Module Scraper.
Import Py.

(** *** Data: JSON records and data frames *)

(** A JSON scalar, also the content of a data-frame cell.  [SNull] is
    JSON [null], Python [None] and pandas [NaN] alike: [fillna] and
    [drop_duplicates] do not tell them apart. *)
Inductive scalar :=
| SNull
| SBool (b : bool)
| SNum (q : Q)
| SStr (s : string).

#[global] Instance scalar_eq_dec : EqDecision scalar.
Proof. solve_decision. Defined.

(** One object of the response's list, and one row of a data frame: a
    dict from field names to scalars. *)
Abbreviation record := (gmap string scalar).

(** What a key of the response body can hold, as far as [process_data]
    looks: a list of records, or something [isinstance(_, list)]
    rejects. *)
Inductive json :=
| JScalar (v : scalar)
| JList (items : list record)
| JDict (d : record).

(** A [pd.DataFrame]: its column labels and its rows in index order.  A
    row stores the cells that hold a value; a column's cell that a row
    does not store reads as [NaN], see [cell]. *)
Record DataFrame := mkDataFrame {
  columns : gset string;
  rows : list record
}.

Definition cell (r : record) (c : string) : scalar :=
  default SNull (r !! c).

(** [pd.DataFrame(records)]: the columns are the keys met in the records. *)
Definition DataFrame_of (records : list record) : DataFrame :=
  {| columns := ⋃ (dom <$> records); rows := records |}.

(** [pd.concat([a, b])]: union of the columns, rows of [a] then of [b]. *)
Definition concat (a b : DataFrame) : DataFrame :=
  {| columns := columns a ∪ columns b; rows := rows a ++ rows b |}.

(** [df[cols]]: [KeyError] when a label is not a column. *)
Definition check_columns (cols : list string) (df : DataFrame)
  : result unit :=
  match list_find (λ c, c ∉ columns df) cols with
  | Some (_, c) => Raise (KeyError c)
  | None => Ok ()
  end.

(** [df[cols] = df[cols].fillna(v)] *)
Definition fillna_cell (v : scalar) (r : record) (c : string) : record :=
  match cell r c with
  | SNull => <[c := v]> r
  | _ => r
  end.

Definition fillna_columns (cols : list string) (v : scalar)
    (df : DataFrame) : result DataFrame :=
  check_columns cols df ;;
  Ok {| columns := columns df;
        rows := (λ r, foldl (fillna_cell v) r cols) <$> rows df |}.

(** [df[c] = v] with a scalar [v]: the column is created or overwritten. *)
Definition set_column (c : string) (v : scalar) (df : DataFrame)
  : DataFrame :=
  {| columns := columns df ∪ {[c]}; rows := <[c := v]> <$> rows df |}.

(** [df.drop_duplicates(subset=..., keep='last')]: a row is dropped when
    a later row carries the same cells in the [subset] columns; the rows
    kept stay in their order. *)
Definition key_of (subset : list string) (r : record) : list scalar :=
  cell r <$> subset.

Fixpoint keep_last (subset : list string) (l : list record)
  : list record :=
  match l with
  | [] => []
  | r :: t =>
      if decide (key_of subset r ∈ key_of subset <$> t)
      then keep_last subset t
      else r :: keep_last subset t
  end.

Definition drop_duplicates (subset : list string) (df : DataFrame)
  : result DataFrame :=
  check_columns subset df ;;
  Ok {| columns := columns df; rows := keep_last subset (rows df) |}.

(** *** The world around the fetcher

    The upstream API answers the n-th request with [upstream n]: nothing
    ([requests.post] raises), or a status with a body that is a JSON
    object or is not JSON.  The clock read while the n-th answer is
    processed shows [clock n]; the output file cannot be written when
    [writable] is [false]. *)

Inductive response :=
| NoResponse
| Reply (status : Z) (body : option (gmap string json)).

Record Env := mkEnv {
  upstream : nat → response;
  clock : nat → string;
  writable : bool
}.

Record Config := mkConfig {
  target_companies : gset string;
  iterations : nat;
  wait_time : Z
}.

(** The output file [output_dir/csv_filename]. *)
Inductive file_state :=
| Missing
| Unreadable
| Stored (df : DataFrame).

Inductive event :=
| Post
| Sleep (seconds : Z)
| ReadCsv
| ToCsv (df : DataFrame).

(** [trace] lists the effects performed so far, the newest first. *)
Record World := mkWorld {
  disk : file_state;
  posts : nat;
  trace : list event
}.

Definition log (e : event) (w : World) : World :=
  {| disk := disk w; posts := posts w; trace := e :: trace w |}.

(** The world after one more request was sent. *)
Definition posted (w : World) : World :=
  {| disk := disk w; posts := S (posts w); trace := Post :: trace w |}.

(** A method with effects: it may raise, and it changes the world. *)
Definition IO (A : Type) : Type := World → result A * World.

#[global] Instance IO_ret : MRet IO := λ A a w, (Ok a, w).
#[global] Instance IO_bind : MBind IO := λ A B k m w,
  match m w with
  | (Ok a, w') => k a w'
  | (Raise e, w') => (Raise e, w')
  end.

Definition raise {A} (e : exn) : IO A := λ w, (Raise e, w).

Definition lift {A} (r : result A) : IO A := λ w, (r, w).

Definition try_io {A} (body : IO A) (handler : exn → IO A) : IO A :=
  λ w, match body w with
       | (Ok a, w') => (Ok a, w')
       | (Raise e, w') => handler e w'
       end.

Definition sleep (seconds : Z) : IO unit :=
  λ w, (Ok (), log (Sleep seconds) w).

(** Reading or writing the output file. *)
Definition is_store_access (e : event) : bool :=
  match e with
  | ReadCsv | ToCsv _ => true
  | _ => false
  end.

(** An answer that makes the body of [fetch_data] fail: no answer, a 4xx
    or 5xx status, or a body that is not JSON. *)
Definition failing (r : response) : Prop :=
  match r with
  | NoResponse => True
  | Reply status body => 400 ≤ status < 600 ∨ body = None
  end.

(** *** tenacity's [retry]

    [retry(stop=stop_after_attempt(n), wait=w)] calls the wrapped function;
    when the call raised, it sleeps [w k] after the k-th attempt and calls
    again, and after the n-th attempt it raises [RetryError].  A call that
    returns, whatever the value, ends the loop.  The wait schedule is the
    library's, taken here as [wait]. *)

Fixpoint retry_from {A} (wait : nat → Z) (remaining : nat)
    (attempt_number : nat) (f : IO A) : IO A :=
  try_io f (λ e,
    match remaining with
    | O => raise RetryError
    | S remaining' =>
        sleep (wait attempt_number) ;;
        retry_from wait remaining' (S attempt_number) f
    end).

Definition retry {A} (stop_after_attempt : nat) (wait : nat → Z)
    (f : IO A) : IO A :=
  retry_from wait (stop_after_attempt - 1) 1 f.

Section Fetcher.

Variable env : Env.
Variable self : Config.

(** The [wait=wait_exponential(multiplier=1)] schedule of tenacity. *)
Variable wait_exponential : nat → Z.

(** [requests.post(url, ..., timeout=30)] *)
Definition requests_post : IO (Z * option (gmap string json)) :=
  λ w,
    match upstream env (posts w) with
    | NoResponse => (Raise ConnectionError, posted w)
    | Reply status body => (Ok (status, body), posted w)
    end.

(** [response.raise_for_status()] *)
Definition raise_for_status (status : Z) : result unit :=
  if bool_decide (400 ≤ status < 600) then Raise (HTTPError status)
  else Ok ().

(** [response.json()] *)
Definition response_json (body : option (gmap string json))
  : result (gmap string json) :=
  match body with
  | Some d => Ok d
  | None => Raise JSONDecodeError
  end.

(** The body of [fetch_data], without its decorator. *)
Definition fetch_data_body : IO (option (gmap string json)) :=
  try_io
    (response ← requests_post;
     lift (raise_for_status response.1) ;;
     d ← lift (response_json response.2);
     mret (Some d))
    (λ e, mret None).

(** [@retry(stop=stop_after_attempt(3), wait=wait_exponential(multiplier=1))] *)
Definition fetch_data : IO (option (gmap string json)) :=
  retry 3 wait_exponential fetch_data_body.

(** [company.get("companyName") in self.target_companies] *)
Definition is_target (company : record) : bool :=
  match company !! "companyName" with
  | Some (SStr name) => bool_decide (name ∈ target_companies self)
  | _ => false
  end.

(** [process_data], with [now] for [datetime.now().isoformat()]. *)
Definition process_data (now : string) (data : gmap string json)
  : option DataFrame :=
  try_return
    (match default (JList []) (data !! "content") with
     | JList companies_list =>
         let filtered_companies := filter is_target companies_list in
         match filtered_companies with
         | [] => Ok None
         | _ =>
             df ← fillna_columns ["buy"; "sell"] (SNum 0%Q)
                    (DataFrame_of filtered_companies);
             Ok (Some (set_column "timestamp" (SStr now) df))
         end
     | _ => Ok None
     end)
    (λ e, None).

(** [os.path.exists(file_path)] *)
Definition path_exists (w : World) : bool :=
  match disk w with
  | Missing => false
  | _ => true
  end.

(** [pd.read_csv(file_path)] *)
Definition read_csv : IO DataFrame :=
  λ w, match disk w with
       | Stored df => (Ok df, log ReadCsv w)
       | _ => (Raise ParserError, log ReadCsv w)
       end.

(** [combined.to_csv(file_path, index=False)] *)
Definition to_csv (combined : DataFrame) : IO unit :=
  λ w, if writable env
       then (Ok (), {| disk := Stored combined; posts := posts w;
                       trace := ToCsv combined :: trace w |})
       else (Raise PermissionError, log (ToCsv combined) w).

Definition dedup_key : list string := ["timestamp"; "companyName"].

Definition save_data (df : DataFrame) : IO bool :=
  try_io
    (combined ← (λ w,
        if path_exists w
        then (existing_data ← read_csv;
              lift (drop_duplicates dedup_key (concat existing_data df))) w
        else (Ok df, w));
     to_csv combined ;;
     mret true)
    (λ e, mret false).

(** [not data] for the optional dict that [fetch_data] returns. *)
Definition falsy (data : option (gmap string json)) : bool :=
  match data with
  | None => true
  | Some d => bool_decide (d = ∅)
  end.

(** One pass through the body of the [for] loop of [run]. *)
Definition iteration (i : nat) : IO unit :=
  data ← fetch_data;
  if falsy data then mret ()
  else
    now ← (λ w, (Ok (clock env (posts w)), w));
    match process_data now (default ∅ data) with
    | Some df => save_data df ;; mret ()
    | None => mret ()
    end ;;
    if bool_decide (Z.of_nat i < Z.of_nat (iterations self) - 1)
    then sleep (wait_time self)
    else mret ().

Fixpoint for_range (body : nat → IO unit) (i n : nat) : IO unit :=
  match n with
  | O => mret ()
  | S n' => body i ;; for_range body (S i) n'
  end.

Definition run : IO unit :=
  for_range iteration 0 (iterations self).

End Fetcher.

(** *** The events of a trace *)

Definition is_post (e : event) : bool :=
  match e with
  | Post => true
  | _ => false
  end.

Definition is_sleep (e : event) : bool :=
  match e with
  | Sleep _ => true
  | _ => false
  end.

(** *** Configuration: [get_default_config], [parse_arguments], [load_config] *)

(** A value of the configuration dict: a scalar, a list, or a dict of
    scalars ([headers], [payload]). *)
Inductive cfg_value :=
| CScalar (v : scalar)
| CList (l : list scalar)
| CDict (d : record).

Definition CInt (z : Z) : cfg_value := CScalar (SNum (inject_Z z)).
Definition CStr (s : string) : cfg_value := CScalar (SStr s).

(** [os.getenv(name, fallback)] *)
Definition getenv (environ : gmap string string) (name fallback : string)
  : string :=
  default fallback (environ !! name).

Definition get_default_config (environ : gmap string string)
  : gmap string cfg_value :=
  {[ "url" := CStr (getenv environ "BVL_API_URL"
                      "https://dataondemand.bvl.com.pe/v1/stock-quote/market");
     "headers" := CDict
       {[ "Content-Type" := SStr "application/json";
          "User-Agent" := SStr (getenv environ "USER_AGENT"
             "Mozilla/5.0 (Windows NT 10.0; Win64; x64) AppleWebKit/537.36 (KHTML, like Gecko) Chrome/114.0.0.0 Safari/537.36") ]};
     "payload" := CDict
       {[ "sector" := SStr ""; "today" := SBool true;
          "companyCode" := SStr ""; "inputCompany" := SStr "" ]};
     "csv_filename" := CStr "bvl_data.csv";
     "target_companies" := CList [SStr "CREDICORP LTD."];
     "iterations" := CInt 3;
     "wait_time" := CInt (2 * 60 * 60);
     "log_level" := CStr "INFO";
     "log_file" := CStr "bvl_data_fetcher.log";
     "output_dir" := CStr "data" ]}.

(** The namespace that [parser.parse_args()] returns: each option is
    [None] when it was not given.  [--iterations] and [--wait-time] have
    [type=int]. *)
Record Args := mkArgs {
  companies : option (list string);
  arg_iterations : option Z;
  arg_wait_time : option Z;
  log_level : option string;
  output_dir : option string;
  config_file : option string
}.

(** [parse_arguments]: [vars] of the namespace.  argparse names the entry
    of [--wait-time] ["wait_time"], and so on. *)
Definition parse_arguments (a : Args) : gmap string (option cfg_value) :=
  {[ "companies" := (λ l, CList (SStr <$> l)) <$> companies a;
     "iterations" := CInt <$> arg_iterations a;
     "wait_time" := CInt <$> arg_wait_time a;
     "log_level" := CStr <$> log_level a;
     "output_dir" := CStr <$> output_dir a;
     "config_file" := CStr <$> config_file a ]}.

(** [v * 60] for the integer that [--wait-time] holds. *)
Definition times_60 (v : cfg_value) : cfg_value :=
  match v with
  | CScalar (SNum q) => CScalar (SNum (q * 60)%Q)
  | _ => v
  end.

(** [load_config], first block: the defaults, updated with the dict of
    the configuration file when a path is given and exists.  Reading a
    file gives a dict, or raises; the [except] clause then prints and
    goes on with the defaults. *)
Definition config_after_file (environ : gmap string string)
    (files : gmap string (option (gmap string cfg_value)))
    (config_file : option string) : gmap string cfg_value :=
  let config := get_default_config environ in
  match config_file with
  | Some path =>
      if bool_decide (path ≠ "") then
        match files !! path with
        | Some (Some file_config) => file_config ∪ config
        | Some None => config
        | None => config
        end
      else config
  | None => config
  end.

(** [load_config], second block: the options given on the command line,
    [wait_time] turned from minutes into seconds. *)
Definition args_given (cli : Args) : gmap string cfg_value :=
  let args := omap id (parse_arguments cli) in
  if bool_decide ("wait_time" ∈ dom args)
  then alter times_60 "wait_time" args
  else args.

Definition load_config (environ : gmap string string)
    (files : gmap string (option (gmap string cfg_value)))
    (cli : Args) (config_file : option string) : gmap string cfg_value :=
  args_given cli ∪ config_after_file environ files config_file.

(** The keys that [EnhancedBVLDataFetcher.__init__] subscripts, in its
    order; a subscript raises [KeyError] when the key is absent. *)
Definition init_keys : list string :=
  ["url"; "headers"; "payload"; "csv_filename"; "target_companies";
   "iterations"; "wait_time"; "log_level"; "log_file"; "output_dir"].

Definition subscript (config : gmap string cfg_value) (key : string)
  : result cfg_value :=
  match config !! key with
  | Some v => Ok v
  | None => Raise (KeyError key)
  end.

Definition init_subscripts (config : gmap string cfg_value)
  : result (list cfg_value) :=
  mapM (subscript config) init_keys.

End Scraper.

(** ** The query service: [BackEnd/src/main.py] *)

Module BackEnd.
Import Py.

(** *** Strings: [str.strip] and [str.upper], on ASCII text *)

(** [c.isspace()] for an ASCII character: tab, line feed, vertical tab,
    form feed, carriage return, the separators 28 to 31, and space. *)
Definition isspace (c : Ascii.ascii) : bool :=
  let n := Ascii.N_of_ascii c in
  ((9 <=? n) && (n <=? 13) || (28 <=? n) && (n <=? 32))%N.

Definition toupper (c : Ascii.ascii) : Ascii.ascii :=
  let n := Ascii.N_of_ascii c in
  if ((97 <=? n) && (n <=? 122))%N then Ascii.ascii_of_N (n - 32) else c.

Fixpoint lstrip (s : string) : string :=
  match s with
  | EmptyString => EmptyString
  | String c s' => if isspace c then lstrip s' else s
  end.

Fixpoint rstrip (s : string) : string :=
  match s with
  | EmptyString => EmptyString
  | String c s' =>
      match rstrip s' with
      | EmptyString => if isspace c then EmptyString
                       else String c EmptyString
      | t => String c t
      end
  end.

Definition strip (s : string) : string := lstrip (rstrip s).

Fixpoint upper (s : string) : string :=
  match s with
  | EmptyString => EmptyString
  | String c s' => String (toupper c) (upper s')
  end.

(** [.str.strip().str.upper()] *)
Definition normalize (s : string) : string := upper (strip s).

(** *** Data *)

(** One row of the CSV, as far as the service reads it.  [timestamp] is the
    instant that [parse_dates] made of the cell, in microseconds: the
    scraper stamps every row it writes.  A numeric cell is [None] when it
    is [NaN].  [percentageChange] and [negotiatedQuantity] are read only
    when the frame has the column. *)
Record Row := mkRow {
  companyName : string;
  last : option Q;
  timestamp : Z;
  percentageChange : option Q;
  negotiatedQuantity : option Q
}.

Record DataFrame := mkDataFrame {
  columns : gset string;
  rows : list Row
}.

(** [df.iloc[-1]] *)
Definition iloc_last (l : list Row) : result Row :=
  match list.last l with
  | Some r => Ok r
  | None => Raise IndexError
  end.

(** [df.empty]: an axis of length 0. *)
Definition empty (df : DataFrame) : bool :=
  bool_decide (rows df = [] ∨ columns df = ∅).

(** What is at a path: a file pandas cannot read, which makes [read_csv]
    raise [why] (no bytes at all: [EmptyDataError]), or a table. *)
Inductive CsvFile :=
| Unparseable (why : exn)
| Table (df : DataFrame).

(** [pd.read_csv(path, parse_dates=["timestamp"], encoding="utf-8-sig")] *)
Definition read_csv (fs : gmap string CsvFile) (path : string)
  : result DataFrame :=
  match fs !! path with
  | None => Raise (FileNotFoundError path)
  | Some (Unparseable why) => Raise why
  | Some (Table df) =>
      if bool_decide ("timestamp" ∈ columns df) then Ok df
      else Raise (ValueError "Missing column provided to 'parse_dates'")
  end.

(** [df.sort_values("timestamp", ascending=...)].  pandas leaves the order
    among equal timestamps to its sorting routine; the model sorts with a
    merge sort, and the properties proved of it are those of any sorted
    permutation. *)
Definition le_timestamp (a b : Row) : Prop := timestamp a ≤ timestamp b.
Definition ge_timestamp (a b : Row) : Prop := timestamp b ≤ timestamp a.

#[global] Instance le_timestamp_dec : RelDecision le_timestamp.
Proof. intros a b. unfold le_timestamp. apply _. Defined.
#[global] Instance ge_timestamp_dec : RelDecision ge_timestamp.
Proof. intros a b. unfold ge_timestamp. apply _. Defined.

Definition sort_values (ascending : bool) (l : list Row) : list Row :=
  if ascending then merge_sort le_timestamp l
  else merge_sort ge_timestamp l.

Definition required_columns : gset string :=
  {[ "companyName"; "last"; "timestamp" ]}.

Definition set_companyName (f : string → string) (r : Row) : Row :=
  {| companyName := f (companyName r); last := last r;
     timestamp := timestamp r; percentageChange := percentageChange r;
     negotiatedQuantity := negotiatedQuantity r |}.

(** [CSVDataLoader._load_data] *)
Definition _load_data (fs : gmap string CsvFile) (csv_path : string)
  : result DataFrame :=
  try_except
    (df ← read_csv fs csv_path;
     (if bool_decide (required_columns ⊆ columns df) then Ok ()
      else Raise (ValueError "Faltan columnas requeridas")) ;;
     Ok {| columns := columns df;
           rows := sort_values true
                     (set_companyName normalize <$> rows df) |})
    (λ e, Raise (HTTPException 500
       ("Error procesando el archivo CSV. Verifique el formato: "
        +:+ str e))).

(** [find_csv_file] *)
Definition find_csv_file (POSSIBLE_CSV_PATHS : list string)
    (fs : gmap string CsvFile) : result string :=
  match list_find (λ path, is_Some (fs !! path)) POSSIBLE_CSV_PATHS with
  | Some (_, path) => Ok path
  | None => Raise (FileNotFoundError "No se encontró el archivo CSV")
  end.

(** The module's globals after import: [CSV_PATH] when [find_csv_file]
    returned, and [data_loader.df]. *)
Record Globals := mkGlobals {
  CSV_PATH : option string;
  data_loader_df : DataFrame
}.

(** [class EmptyDataLoader: df = pd.DataFrame(columns=[...])] *)
Definition EmptyDataLoader_df : DataFrame :=
  {| columns := {[ "companyName"; "last"; "timestamp" ]}; rows := [] |}.

(** The [try: ... except Exception] block that runs at import. *)
Definition startup (POSSIBLE_CSV_PATHS : list string)
    (fs : gmap string CsvFile) : Globals :=
  match find_csv_file POSSIBLE_CSV_PATHS fs with
  | Ok path =>
      match _load_data fs path with
      | Ok df => {| CSV_PATH := Some path; data_loader_df := df |}
      | Raise e =>
          {| CSV_PATH := Some path; data_loader_df := EmptyDataLoader_df |}
      end
  | Raise e => {| CSV_PATH := None; data_loader_df := EmptyDataLoader_df |}
  end.

(** The store is missing when none of the candidate paths exists; it is
    empty when the file found has no bytes or has a header and no row. *)
Definition store_missing (POSSIBLE_CSV_PATHS : list string)
    (fs : gmap string CsvFile) : Prop :=
  Forall (λ path, fs !! path = None) POSSIBLE_CSV_PATHS.

Definition store_empty (POSSIBLE_CSV_PATHS : list string)
    (fs : gmap string CsvFile) : Prop :=
  ∃ path, find_csv_file POSSIBLE_CSV_PATHS fs = Ok path
    ∧ (fs !! path = Some (Unparseable EmptyDataError)
       ∨ ∃ header, fs !! path = Some (Table {| columns := header;
                                                rows := [] |})).

(** The status line FastAPI answers with: 200 when the endpoint returned,
    the exception's code when it raised [HTTPException], 500 otherwise. *)
Definition status_code {A} (r : result A) : Z :=
  match r with
  | Ok _ => 200
  | Raise (HTTPException code _) => code
  | Raise _ => 500
  end.

(** *** Endpoints *)

Record Health := mkHealth {
  status : string;
  csv_path : string;
  data_loaded : bool;
  details : string
}.

(** [GET /health] *)
Definition health_check (g : Globals) : result Health :=
  Ok {| status := "running";
        csv_path := default "No configurado" (CSV_PATH g);
        data_loaded := negb (empty (data_loader_df g));
        details := if empty (data_loader_df g)
                   then "El backend está funcionando pero sin datos"
                   else "Datos cargados correctamente" |}.

(** [Series.unique().tolist()]: the values in order of first appearance. *)
Fixpoint unique (l : list string) : list string :=
  match l with
  | [] => []
  | x :: t => x :: filter (λ y, y ≠ x) (unique t)
  end.

(** [GET /api/companies] *)
Definition get_companies (g : Globals) : result (list string) :=
  if empty (data_loader_df g)
  then Raise (HTTPException 503
         "Servicio no disponible. No se encontraron datos. Verifique el archivo CSV.")
  else Ok (unique (companyName <$> rows (data_loader_df g))).

(** The dict built for [realtime] and for each entry of [historical].  In
    [realtime] a [None] is the float [nan]; in a [historical] entry it is
    Python's [None]. *)
Record Quote := mkQuote {
  price : option Q;
  variation : option Q;
  volume : option Q;
  quote_timestamp : Z
}.

Record Metadata := mkMetadata {
  data_points : nat;
  time_range_from : Z;
  time_range_to : Z
}.

Record View := mkView {
  realtime : Quote;
  historical : list Quote;
  metadata : Metadata
}.

(** [timedelta(days=n)], in microseconds. *)
Definition timedelta_days (n : Z) : Z := n * 86400 * 1000000.

(** What [Series.min()] and [Series.max()] of a datetime column return:
    [NaT] for a column without rows. *)
Inductive pd_Timestamp :=
| NaT
| Timestamp (t : Z).

Definition series_min (l : list Z) : pd_Timestamp :=
  match l with
  | [] => NaT
  | t :: l' => Timestamp (foldr Z.min t l')
  end.

Definition series_max (l : list Z) : pd_Timestamp :=
  match l with
  | [] => NaT
  | t :: l' => Timestamp (foldr Z.max t l')
  end.

Definition TICKER : string := "CREDICORP LTD.".

Section Endpoint.

(** [datetime.timestamp(pd.NaT)] is outside what the source fixes: the
    call reaches CPython's method with the placeholder date behind [NaT],
    and raises or returns a number far in the past, by platform and time
    zone.  The outcome is a parameter. *)
Variable datetime_timestamp_NaT : result Z.

(** [datetime.timestamp(x)]: the instant as a number; the model keeps the
    instant itself, as the conversion keeps the order. *)
Definition datetime_timestamp (x : pd_Timestamp) : result Z :=
  match x with
  | Timestamp t => Ok t
  | NaT => datetime_timestamp_NaT
  end.

Variable g : Globals.

(** [row.get(column, 0)] for the two optional columns. *)
Definition get_percentageChange (row : Row) : option Q :=
  if bool_decide ("percentageChange" ∈ columns (data_loader_df g))
  then percentageChange row else Some 0%Q.

Definition get_negotiatedQuantity (row : Row) : option Q :=
  if bool_decide ("negotiatedQuantity" ∈ columns (data_loader_df g))
  then negotiatedQuantity row else Some 0%Q.

(** The dict made of one row.  Its ["timestamp"] is
    [datetime.timestamp(row["timestamp"])], which returns for the parsed
    instant of a row. *)
Definition to_quote (row : Row) : Quote :=
  {| price := last row;
     variation := get_percentageChange row;
     volume := get_negotiatedQuantity row;
     quote_timestamp := timestamp row |}.

(** [all(value is not None for value in item.values())] *)
Definition complete (item : Quote) : bool :=
  bool_decide (is_Some (price item)) &&
  bool_decide (is_Some (variation item)) &&
  bool_decide (is_Some (volume item)).

(** The rows of the ticker: [df[df["companyName"] == "CREDICORP LTD."]]. *)
Definition credicorp_rows : list Row :=
  filter (λ r, companyName r = TICKER) (rows (data_loader_df g)).

(** [GET /api/credicorp], asked at the instant [now]. *)
Definition get_credicorp_data (now : Z) : result View :=
  try_except
    (let credicorp_data := credicorp_rows in
     (if bool_decide (credicorp_data = [])
      then Raise (HTTPException 404
             "No se encontraron datos para CREDICORP LTD.")
      else Ok ()) ;;
     latest ← iloc_last credicorp_data;
     let realtime_data := to_quote latest in
     let cutoff_date := now - timedelta_days 30 in
     let historical :=
       sort_values false
         (filter (λ r, cutoff_date ≤ timestamp r) credicorp_data) in
     let historical_data := to_quote <$> historical in
     let historical_data := filter complete historical_data in
     t_from ← datetime_timestamp (series_min (timestamp <$> historical));
     t_to ← datetime_timestamp (series_max (timestamp <$> historical));
     Ok {| realtime := realtime_data;
           historical := historical_data;
           metadata := {| data_points := length historical_data;
                          time_range_from := t_from;
                          time_range_to := t_to |} |})
    (λ e, Raise (HTTPException 500
       ("Error procesando datos de Credicorp: " +:+ str e))).

End Endpoint.

End BackEnd.


(** ** The Yahoo Finance fetcher: [Scraper/src/yfinance_fetcher.py] *)

Module YFinance.
Import Py Scraper.

Definition tickers : list string := ["ILF"; "BRK-B"; "BAP"].

(** One row of [stock.history(period="1d")]: its index, already formatted
    by [strftime], and its columns. *)
Record Bar := mkBar {
  bar_date : string;
  bar_open : Q;
  bar_high : Q;
  bar_low : Q;
  bar_close : Q;
  bar_volume : Q
}.

(** What yfinance gives for one ticker: an exception, or the history and
    the [info] dict. *)
Inductive download :=
| Failed (e : exn)
| Fetched (history : list Bar) (info : record).

(** The ticker was fetched and [history.empty] is false. *)
Definition has_history (d : download) : bool :=
  match d with
  | Fetched (_ :: _) _ => true
  | _ => false
  end.

Section Fetcher.

(** [round(x, 2)] on a float, left to Python. *)
Variable round2 : Q → Q.

(** The body of the [for] loop of [get_ticker_data]: the dict appended to
    [data], if any. *)
Definition ticker_row (ticker : string) (d : download) : option record :=
  match d with
  | Failed e => None
  | Fetched history info =>
      match list.last history with
      | None => None
      | Some bar =>
          Some {[ "Date" := SStr (bar_date bar);
                  "Ticker" := SStr ticker;
                  "Open" := SNum (round2 (bar_open bar));
                  "High" := SNum (round2 (bar_high bar));
                  "Low" := SNum (round2 (bar_low bar));
                  "Close" := SNum (round2 (bar_close bar));
                  "Volume" := SNum (bar_volume bar);
                  "Company" := default (SStr "N/A") (info !! "longName") ]}
      end
  end.

Definition get_ticker_data (yf : string → download) : DataFrame :=
  DataFrame_of (omap (λ ticker, ticker_row ticker (yf ticker)) tickers).

Definition price_key : list string := ["Date"; "Ticker"].

(** [save_to_csv]: nothing here catches an exception. *)
Definition save_to_csv (env : Env) (df : DataFrame) : IO unit :=
  df ← (λ w,
     if path_exists w
     then (existing_df ← read_csv;
           lift (drop_duplicates price_key (concat existing_df df))) w
     else (Ok df, w));
  to_csv env df.

(** [df.empty] *)
Definition empty (df : DataFrame) : bool :=
  bool_decide (rows df = [] ∨ columns df = ∅).

(** One pass through the body of the [while True] loop of [main]. *)
Definition main_pass (env : Env) (yf : string → download) : IO unit :=
  let prices_df := get_ticker_data yf in
  (if empty prices_df then mret () else save_to_csv env prices_df) ;;
  sleep (2 * 60 * 60).

End Fetcher.

End YFinance.

(** ** The hourly BAP download: [Scraper/src/yfinance_bap.py] *)

Module Bap.
Import Py.

(** A frame with its columns in order, and a CSV file: a header line and
    the lines of values below it. *)
Record Frame := mkFrame {
  frame_columns : list string;
  frame_values : list (list Scraper.scalar)
}.

Record Csv := mkCsv {
  header : list string;
  lines : list (list Scraper.scalar)
}.

(** The process: the global [execution_count], whether the folder [data]
    exists, the file [data/bap_stock_data.csv], and how many downloads
    were asked of yfinance. *)
Record State := mkState {
  execution_count : nat;
  data_dir : bool;
  file : option Csv;
  downloads : nat
}.

Section Job.

(** [stock.history(period="1d", interval="1h")] at the n-th download, with
    [reset_index] applied: a frame, or an exception. *)
Variable history : nat → result Frame.

(** Whether [to_csv] can write the file. *)
Variable writable : bool.

(** [fetch_bap_data]: the [except] clause logs and returns.  With the file
    present [to_csv(mode='a', header=False)] adds the values below what is
    there; without it [to_csv] writes the header and the values. *)
Definition fetch_bap_data (st : State) : State :=
  match history (downloads st) with
  | Raise e =>
      {| execution_count := execution_count st; data_dir := data_dir st;
         file := file st; downloads := S (downloads st) |}
  | Ok data =>
      {| execution_count := execution_count st;
         data_dir := true;
         file := if writable then
                   match file st with
                   | Some csv =>
                       Some {| header := header csv;
                               lines := lines csv ++ frame_values data |}
                   | None =>
                       Some {| header := frame_columns data;
                               lines := frame_values data |}
                   end
                 else file st;
         downloads := S (downloads st) |}
  end.

(** What [limited_execution] returns: [None], or [schedule.CancelJob]. *)
Inductive job_result :=
| Continue
| CancelJob.

Definition limited_execution (st : State) : job_result * State :=
  if bool_decide (execution_count st < 4)%nat then
    let st' := fetch_bap_data st in
    (Continue,
     {| execution_count := S (execution_count st'); data_dir := data_dir st';
        file := file st'; downloads := downloads st' |})
  else (CancelJob, st).

(** The job run [n] times in a row. *)
Fixpoint run_job (n : nat) (st : State) : State :=
  match n with
  | O => st
  | S n' => run_job n' (limited_execution st).2
  end.

End Job.

End Bap.

(** ** Housekeeping of log files: [logger.py] *)

Module Logger.
Import Py.

(** An entry of the log directory with its [st_mtime]. *)
Inductive entry :=
| File (mtime : Q)
| Dir (mtime : Q).

Definition st_mtime (e : entry) : Q :=
  match e with
  | File t | Dir t => t
  end.

(** The pattern ["*.log*"]: the name holds [".log"] somewhere. *)
Fixpoint contains (sub s : string) : bool :=
  String.prefix sub s ||
  match s with
  | EmptyString => false
  | String _ s' => contains sub s'
  end.

Definition matches_log (name : string) : bool := contains ".log" name.

Definition older (cutoff : Q) (e : entry) : bool :=
  if Qlt_le_dec (st_mtime e) cutoff then true else false.

(** The loop of [clean_old_logs] over the entries that the glob yields, in
    its order: [unlink] raises on a directory, and the loop ends there.
    The result is the count, or the exception, with the entries left. *)
Fixpoint clean_loop (cutoff : Q) (listing : list (string * entry))
    (deleted : nat) : result nat * list (string * entry) :=
  match listing with
  | [] => (Ok deleted, [])
  | (name, e) :: rest =>
      if matches_log name && older cutoff e then
        match e with
        | File _ => clean_loop cutoff rest (S deleted)
        | Dir _ => (Raise PermissionError, listing)
        end
      else
        let '(r, rest') := clean_loop cutoff rest deleted in
        (r, (name, e) :: rest')
  end.

(** [clean_old_logs(log_dir, days)] at time [now]; the directory is [None]
    when it does not exist. *)
Definition clean_old_logs (now : Q) (log_dir : option (list (string * entry)))
    (days : Z) : result nat * option (list (string * entry)) :=
  let cutoff := (now - inject_Z days * 86400)%Q in
  match log_dir with
  | None => (Ok 0%nat, None)
  | Some listing =>
      let '(r, listing') := clean_loop cutoff listing 0 in
      (r, Some listing')
  end.

End Logger.

(** * Concrete inputs used by the examples below *)

Module Scenario.
Import Py Scraper.

(** A quote of ACME stamped [T1], as [process_data] leaves it. *)
Definition acme_row (last : Q) : record :=
  {[ "companyName" := SStr "ACME"; "last" := SNum last;
     "buy" := SNum 0%Q; "sell" := SNum 0%Q; "timestamp" := SStr "T1" ]}.

Definition quote_columns : gset string :=
  {[ "companyName"; "last"; "buy"; "sell"; "timestamp" ]}.

Definition store_10_5 : DataFrame :=
  {| columns := quote_columns; rows := [acme_row (21 # 2)%Q] |}.

Definition batch_11_0 : DataFrame :=
  {| columns := quote_columns; rows := [acme_row 11%Q] |}.

(** A store with a quote of ACME stamped [T0] and one stamped [T1]. *)
Definition store_two_days : DataFrame :=
  {| columns := quote_columns;
     rows := [ <[ "timestamp" := SStr "T0" ]> (acme_row 10%Q);
               acme_row (21 # 2)%Q ] |}.

(** A batch in which the response listed ACME twice. *)
Definition batch_acme_twice : DataFrame :=
  {| columns := quote_columns;
     rows := [acme_row (21 # 2)%Q; acme_row 11%Q] |}.

Definition quiet_env : Env :=
  {| upstream := λ _, NoResponse; clock := λ _, "T1"; writable := true |}.

Definition world_with (d : file_state) : World :=
  {| disk := d; posts := 0; trace := [] |}.

Definition no_wait : nat → Z := λ _, 0.

(** An upstream that answers every request with status 200 and [body]. *)
Definition replying_env (body : gmap string json) : Env :=
  {| upstream := λ _, Reply 200 (Some body); clock := λ _, "T1";
     writable := true |}.

(** A fetcher whose only target is ACME. *)
Definition acme_config : Config :=
  {| target_companies := {[ "ACME" ]}; iterations := 3; wait_time := 7200 |}.

(** The spec's raw batch: ACME and OTHER, each with a last price only. *)
Definition raw_acme : record :=
  {[ "companyName" := SStr "ACME"; "last" := SNum (21 # 2)%Q ]}.

Definition raw_other : record :=
  {[ "companyName" := SStr "OTHER"; "last" := SNum 3%Q ]}.

Definition raw_batch : gmap string json :=
  {[ "content" := JList [raw_acme; raw_other] ]}.

(** The same batch when the API sends the quote fields of ACME as null. *)
Definition raw_acme_null_quotes : record :=
  <[ "buy" := SNull ]> (<[ "sell" := SNull ]> raw_acme).

Definition raw_batch_null_quotes : gmap string json :=
  {[ "content" := JList [raw_acme_null_quotes; raw_other] ]}.

(** A command line with [--wait-time 30] alone, and a configuration file
    that sets five iterations and a wait of 600 seconds. *)
Definition cli_wait_30 : Args :=
  {| companies := None; arg_iterations := None; arg_wait_time := Some 30;
     log_level := None; output_dir := None; config_file := None |}.

Definition config_json : gmap string cfg_value :=
  {[ "iterations" := CInt 5; "wait_time" := CInt 600 ]}.

Definition config_files : gmap string (option (gmap string cfg_value)) :=
  {[ "config.json" := Some config_json ]}.

(** A store for the query service: three quotes of Credicorp written with
    stray blanks and lower case, out of order, the newest with no last
    price, and one quote of another company. *)
Definition day : Z := 86400 * 1000000.

Definition csv_rows : list BackEnd.Row :=
  [ BackEnd.mkRow " Credicorp Ltd. " (Some 150%Q) (98 * day)
      (Some 1%Q) (Some 500%Q);
    BackEnd.mkRow "OTHER" (Some 3%Q) (99 * day) (Some 0%Q) (Some 10%Q);
    BackEnd.mkRow "credicorp ltd." None (99 * day)
      (Some 2%Q) (Some 700%Q);
    BackEnd.mkRow "CREDICORP LTD." (Some 149%Q) (97 * day)
      (Some 0%Q) (Some 300%Q) ].

Definition csv_columns : gset string :=
  {[ "companyName"; "last"; "timestamp"; "percentageChange";
     "negotiatedQuantity" ]}.

Definition csv_paths : list string := ["data/bvl_data.csv"].

Definition csv_fs : gmap string BackEnd.CsvFile :=
  {[ "data/bvl_data.csv" :=
       BackEnd.Table (BackEnd.mkDataFrame csv_columns csv_rows) ]}.

(** The same place with a header and no row, and with only the quote of
    the other company. *)
Definition header_only_fs : gmap string BackEnd.CsvFile :=
  {[ "data/bvl_data.csv" :=
       BackEnd.Table (BackEnd.mkDataFrame csv_columns []) ]}.

Definition other_only_fs : gmap string BackEnd.CsvFile :=
  {[ "data/bvl_data.csv" :=
       BackEnd.Table (BackEnd.mkDataFrame csv_columns
         [BackEnd.mkRow "OTHER" (Some 3%Q) (99 * day)
            (Some 0%Q) (Some 10%Q)]) ]}.

(** yfinance answers ILF with one bar, fails on BRK-B and has no history
    for BAP. *)
Definition yf_partial (ticker : string) : YFinance.download :=
  if bool_decide (ticker = "ILF") then
    YFinance.Fetched
      [YFinance.mkBar "2025-01-02 00:00:00" 25%Q 26%Q 24%Q (51 # 2)%Q
         1000%Q]
      {[ "longName" := SStr "iShares Latin America 40 ETF" ]}
  else if bool_decide (ticker = "BRK-B") then
    YFinance.Failed ConnectionError
  else YFinance.Fetched [] ∅.

(** The BAP job before its first run, with one hour of data per download. *)
Definition bap_history (n : nat) : Py.result Bap.Frame :=
  Py.Ok (Bap.mkFrame ["Datetime"; "Close"]
           [[SStr "10:30"; SNum 190%Q]]).

Definition bap_start : Bap.State :=
  {| Bap.execution_count := 0; Bap.data_dir := false; Bap.file := None;
     Bap.downloads := 0 |}.

Definition bap_csv : Bap.Csv :=
  {| Bap.header := ["Datetime"; "Close"];
     Bap.lines := [[SStr "09:30"; SNum 189%Q]] |}.

Definition bap_running : Bap.State :=
  {| Bap.execution_count := 1; Bap.data_dir := true;
     Bap.file := Some bap_csv; Bap.downloads := 1 |}.

(** A log folder seen at time 100 days (in seconds): an old log, a rotated
    old log, a recent log and an old file that is no log. *)
Definition log_listing : list (string * Logger.entry) :=
  [ ("fetcher_20240101.log", Logger.File (10 * 86400)%Q);
    ("fetcher.log.1", Logger.File (20 * 86400)%Q);
    ("fetcher_20240401.log", Logger.File (95 * 86400)%Q);
    ("notes.txt", Logger.File (5 * 86400)%Q) ].

(** The request arrives on day 100. *)
Definition request_time : Z := 100 * day.

Definition NaT_raises : Py.result Z :=
  Py.Raise (Py.ValueError "year 0 is out of range").

End Scenario.

(** * Properties of the scraper *)

Module ScraperSpec.
Import Py Scraper.

(** ** [drop_duplicates(..., keep='last')] *)

Section KeepLast.

Variable subset : list string.

Local Abbreviation key := (key_of subset).

Lemma keep_last_sublist (l : list record) :
  keep_last subset l `sublist_of` l.
Proof.
  induction l as [|r t IH]; simpl; [done|].
  case_decide; [by apply sublist_cons | by apply sublist_skip].
Qed.

Lemma keep_last_keys (l : list record) (k : list scalar) :
  k ∈ key <$> keep_last subset l ↔ k ∈ key <$> l.
Proof.
  induction l as [|r t IH]; simpl; [done|].
  case_decide as Hdup; rewrite ?fmap_cons, ?elem_of_cons, IH.
  - split; [by right|]. intros [->|]; done.
  - done.
Qed.

Lemma keep_last_NoDup (l : list record) :
  NoDup (key <$> keep_last subset l).
Proof.
  induction l as [|r t IH]; simpl; [constructor|].
  case_decide as Hdup; [done|].
  rewrite fmap_cons. constructor; [|done].
  by rewrite keep_last_keys.
Qed.





End KeepLast.

(** ** [save_data] *)

Lemma check_columns_ok (cols : list string) (df : DataFrame) :
  Forall (λ c, c ∈ columns df) cols → check_columns cols df = Ok ().
Proof.
  intros Hall. unfold check_columns.
  destruct (list_find _ cols) as [[i c]|] eqn:Hfind; [|done].
  apply list_find_Some in Hfind as (Hi & Hc & _).
  apply list_elem_of_lookup_2 in Hi.
  rewrite Forall_forall in Hall. by apply Hall in Hi.
Qed.

Lemma check_columns_missing (cols : list string) (df : DataFrame) :
  ¬ Forall (λ c, c ∈ columns df) cols →
  ∃ c, check_columns cols df = Raise (KeyError c).
Proof.
  intros Hnot. unfold check_columns.
  destruct (list_find _ cols) as [[i c]|] eqn:Hfind; [by eexists|].
  destruct Hnot. apply Forall_forall. intros c Hc.
  eapply list_find_None, Forall_forall in Hfind; [|done].
  simpl in Hfind. by apply dec_stable.
Qed.

(** With an existing, readable store and a writable file, [save_data]
    reads the store, writes the merge and returns [True]. *)
Lemma save_data_stored (env : Env) (existing df : DataFrame) (w : World) :
  writable env = true →
  disk w = Stored existing →
  "timestamp" ∈ columns df →
  "companyName" ∈ columns df →
  ∃ merged,
    save_data env df w
    = (Ok true, {| disk := Stored merged; posts := posts w;
                   trace := ToCsv merged :: ReadCsv :: trace w |})
    ∧ columns merged = columns existing ∪ columns df
    ∧ rows merged = keep_last dedup_key (rows existing ++ rows df).
Proof.
  intros Hw Hd Ht Hc. destruct w as [d p t]. simpl in Hd. subst d.
  eexists {| columns := _; rows := _ |}. split; [|done].
  unfold save_data, try_io, mbind, IO_bind, read_csv, lift, drop_duplicates.
  simpl. rewrite check_columns_ok.
  - unfold to_csv. rewrite Hw. done.
  - unfold dedup_key. simpl. repeat constructor; set_solver.
Qed.



(** The spec's scenario: two polls in one window, 10.5 then 11.0; the
    merged store is the single row with 11.0. *)
Example save_data_same_window :
  save_data Scenario.quiet_env Scenario.batch_11_0
    (Scenario.world_with (Stored Scenario.store_10_5))
  = (Ok true,
     {| disk := Stored Scenario.batch_11_0; posts := 0;
        trace := [ToCsv Scenario.batch_11_0; ReadCsv] |}).
Proof. vm_compute. reflexivity. Qed.

(** The first write, with no file yet, stores the batch as it is. *)
Lemma save_data_first_write (env : Env) (df : DataFrame) (w : World) :
  writable env = true →
  disk w = Missing →
  save_data env df w
  = (Ok true, {| disk := Stored df; posts := posts w;
                 trace := ToCsv df :: trace w |}).
Proof.
  intros Hw Hd. destruct w as [d p t]. simpl in Hd. subst d.
  unfold save_data, try_io, mbind, IO_bind, to_csv. simpl. by rewrite Hw.
Qed.

(** A batch that lists a company twice therefore keeps both rows on the
    first write; the next merge of the same batch keeps the last one. *)
Example save_data_first_write_keeps_batch_rows :
  save_data Scenario.quiet_env Scenario.batch_acme_twice
    (Scenario.world_with Missing)
  = (Ok true,
     {| disk := Stored Scenario.batch_acme_twice; posts := 0;
        trace := [ToCsv Scenario.batch_acme_twice] |})
  ∧ save_data Scenario.quiet_env Scenario.batch_acme_twice
      (Scenario.world_with (Stored Scenario.batch_acme_twice))
    = (Ok true,
       {| disk := Stored Scenario.batch_11_0; posts := 0;
          trace := [ToCsv Scenario.batch_11_0; ReadCsv] |}).
Proof. vm_compute. done. Qed.



(** ** [fetch_data] and its decorator *)

(** On a function that raises at every call, the decorator of
    [fetch_data] calls three times, sleeping in between, then raises. *)
Lemma retry_of_raising_call (wait : nat → Z) (w : World) :
  retry 3 wait (λ w, (Raise ConnectionError, posted w) : result unit * World)
    w
  = (Raise RetryError,
     {| disk := disk w; posts := S (S (S (posts w)));
        trace := Post :: Sleep (wait 2%nat) :: Post :: Sleep (wait 1%nat)
                 :: Post :: trace w |}).
Proof. reflexivity. Qed.

(** The body of [fetch_data] returns at every call: its [except] clause
    turns each failure into [None]. *)
Lemma fetch_data_body_returns (env : Env) (w : World) :
  ∃ data, fetch_data_body env w = (Ok data, posted w)
          ∧ (failing (upstream env (posts w)) → data = None).
Proof.
  unfold fetch_data_body, try_io, mbind, IO_bind, requests_post, lift.
  destruct (upstream env (posts w)) as [|status body]; simpl.
  { by eexists. }
  unfold raise_for_status. case_bool_decide as Hstatus; simpl.
  { by eexists. }
  destruct body as [d|]; simpl.
  - eexists. split; [done|]. intros [?|?]; done.
  - by eexists.
Qed.

(** The decorated [fetch_data] therefore ends after its first call. *)
Lemma fetch_data_returns (env : Env) (wait : nat → Z) (w : World) :
  ∃ data, fetch_data env wait w = (Ok data, posted w)
          ∧ (failing (upstream env (posts w)) → data = None).
Proof.
  destruct (fetch_data_body_returns env w) as (data & Hbody & Hfail).
  exists data. split; [|done].
  unfold fetch_data, retry. simpl. unfold try_io. by rewrite Hbody.
Qed.

(** C3, as the code behaves.  Against an upstream that fails at every
    request, [fetch_data] posts once, never sleeps, and returns [None]. *)
Theorem fetch_data_single_attempt
    (env : Env) (wait : nat → Z) (w : World) :
  (∀ n, failing (upstream env n)) →
  fetch_data env wait w
  = (Ok None, {| disk := disk w; posts := posts w + 1;
                 trace := Post :: trace w |}).
Proof.
  intros Hfail.
  destruct (fetch_data_returns env wait w) as (data & Hcall & Hnone).
  rewrite Hcall, (Hnone (Hfail _)). unfold posted.
  by rewrite Nat.add_1_r.
Qed.

Lemma fetch_data_single_attempt_witness :
  fetch_data Scenario.quiet_env Scenario.no_wait
    (Scenario.world_with Missing)
  = (Ok None, {| disk := Missing; posts := 1; trace := [Post] |}).
Proof.
  apply (fetch_data_single_attempt Scenario.quiet_env Scenario.no_wait
           (Scenario.world_with Missing)).
  intros n. exact I.
Defined.

(** ** [process_data] *)

Section ProcessData.

Variable self : Config.
Variable now : string.

Local Abbreviation fill_quotes :=
  (λ r : record, foldl (fillna_cell (SNum 0%Q)) r ["buy"; "sell"]).

(** No list under ["content"]: no batch. *)
Lemma process_data_not_a_list (data : gmap string json) :
  (∀ l, data !! "content" ≠ Some (JList l)) →
  data !! "content" ≠ None →
  process_data self now data = None.
Proof.
  intros Hlist Hsome. unfold process_data.
  destruct (data !! "content") as [[v|l|d]|]; try done.
  by destruct (Hlist l).
Qed.

(** No record of a target company: no batch. *)
Lemma process_data_no_target (data : gmap string json) :
  filter (is_target self)
    (match default (JList []) (data !! "content") with
     | JList l => l
     | _ => []
     end) = [] →
  process_data self now data = None.
Proof.
  unfold process_data.
  destruct (default _ (data !! "content")) as [v|l|d]; try done.
  by intros ->.
Qed.

(** When the kept records bring a ["buy"] and a ["sell"] column, the batch
    is made of exactly the records of the target companies, in their
    order, with the nulls of both columns filled and the timestamp set. *)
Lemma process_data_batch (data : gmap string json) (l : list record) :
  data !! "content" = Some (JList l) →
  filter (is_target self) l ≠ [] →
  "buy" ∈ columns (DataFrame_of (filter (is_target self) l)) →
  "sell" ∈ columns (DataFrame_of (filter (is_target self) l)) →
  process_data self now data
  = Some {| columns := columns (DataFrame_of (filter (is_target self) l))
                       ∪ {[ "timestamp" ]};
            rows := (λ r, <[ "timestamp" := SStr now ]> (fill_quotes r))
                    <$> filter (is_target self) l |}.
Proof.
  intros Hdata Hne Hbuy Hsell. unfold process_data. rewrite Hdata. simpl.
  destruct (filter (is_target self) l) as [|r f] eqn:Hf; [done|].
  unfold fillna_columns. rewrite check_columns_ok.
  - simpl. unfold set_column. simpl. by rewrite <-list_fmap_compose.
  - repeat constructor; done.
Qed.

(** When none of the kept records has a ["buy"] key, or none has a
    ["sell"] key, selecting the two columns raises [KeyError] and the
    [except] clause returns no batch. *)
Lemma process_data_missing_quote_column
    (data : gmap string json) (l : list record) :
  data !! "content" = Some (JList l) →
  "buy" ∉ columns (DataFrame_of (filter (is_target self) l))
  ∨ "sell" ∉ columns (DataFrame_of (filter (is_target self) l)) →
  process_data self now data = None.
Proof.
  intros Hdata Hmiss. unfold process_data. rewrite Hdata. simpl.
  destruct (filter (is_target self) l) as [|r f] eqn:Hf; [done|].
  unfold fillna_columns.
  destruct (check_columns_missing ["buy"; "sell"] (DataFrame_of (r :: f)))
    as [c ->]; [|done].
  intros Hall. inversion_clear Hall as [|? ? Hb Hs].
  inversion_clear Hs as [|? ? Hs' _]. tauto.
Qed.

(** A batch has the two columns that [save_data] deduplicates on. *)
Lemma process_data_key_columns (data : gmap string json) (df : DataFrame) :
  process_data self now data = Some df →
  "timestamp" ∈ columns df ∧ "companyName" ∈ columns df.
Proof.
  unfold process_data.
  destruct (default _ (data !! "content")) as [v|l|d]; try done.
  destruct (filter (is_target self) l) as [|r f] eqn:Hf; [done|].
  unfold fillna_columns.
  destruct (check_columns _ _); [|done]. simpl. intros [= <-]. simpl.
  split; [set_solver|].
  assert (r ∈ filter (is_target self) l) as Hr by (rewrite Hf; by left).
  apply list_elem_of_filter in Hr as [Hr _]. unfold is_target in Hr.
  destruct (r !! "companyName") as [v|] eqn:Hname; [|done].
  assert ("companyName" ∈ dom r) by (apply elem_of_dom; eauto).
  set_solver.
Qed.

(** What [fillna(0)] leaves in a quote cell. *)
Lemma cell_fillna_cell (v : scalar) (r : record) (c c' : string) :
  cell (fillna_cell v r c) c'
  = if decide (c = c')
    then match cell r c with SNull => v | x => x end
    else cell r c'.
Proof.
  unfold fillna_cell. case_decide as Hc.
  - subst c'. destruct (cell r c) eqn:Hcell; try done.
    unfold cell. by rewrite lookup_insert_eq.
  - destruct (cell r c); try done.
    unfold cell. by rewrite lookup_insert_ne.
Qed.

Lemma fill_quotes_cell (r : record) (c : string) :
  c = "buy" ∨ c = "sell" →
  cell (fill_quotes r) c
  = match cell r c with SNull => SNum 0%Q | v => v end.
Proof.
  intros [-> | ->]; simpl; rewrite !cell_fillna_cell; simpl; [|done].
  by destruct (cell r "buy").
Qed.

End ProcessData.

(** C8, as the code behaves on the spec's raw batch.  ACME is the only
    target and its record has no ["buy"] and no ["sell"] key: selecting
    these columns fails and [process_data] returns no batch at all. *)
Theorem process_data_absent_quotes_no_batch (now : string) :
  process_data Scenario.acme_config now Scenario.raw_batch = None.
Proof. vm_compute. reflexivity. Qed.

(** With the two keys present and null, the batch is the one row of ACME
    with both quotes at 0. *)
Example process_data_null_quotes :
  process_data Scenario.acme_config "T1" Scenario.raw_batch_null_quotes
  = Some {| columns := Scenario.quote_columns;
            rows := [Scenario.acme_row (21 # 2)%Q] |}.
Proof. vm_compute. reflexivity. Qed.

(** ** [run] *)

Section Run.

Variable env : Env.
Variable self : Config.
Variable wait : nat → Z.

(** [save_data] returns a boolean whatever happens to the file. *)
Lemma save_data_returns (df : DataFrame) (w : World) :
  ∃ ok w', save_data env df w = (Ok ok, w').
Proof.
  unfold save_data, try_io.
  destruct (_ ≫= _) as [[ok|e] w'] eqn:Hbody; by eexists _, _.
Qed.


(** An iteration never raises, so the loop of [run] reaches its end. *)
Lemma iteration_returns (i : nat) (w : World) :
  ∃ w', iteration env self wait i w = (Ok (), w').
Proof.
  destruct (fetch_data_returns env wait w) as (data & Hcall & _).
  unfold iteration, mbind, IO_bind. rewrite Hcall.
  destruct (falsy data); [by eexists|]. simpl.
  destruct (process_data _ _ _) as [df|]; simpl.
  - destruct (save_data_returns df (posted w)) as (ok & w' & ->).
    case_bool_decide; by eexists.
  - case_bool_decide; by eexists.
Qed.

Lemma for_range_returns (i n : nat) (w : World) :
  ∃ w', for_range (iteration env self wait) i n w = (Ok (), w').
Proof.
  revert i w. induction n as [|n IH]; intros i w; simpl.
  - by eexists.
  - destruct (iteration_returns i w) as [w1 Hstep].
    unfold mbind, IO_bind. rewrite Hstep. apply IH.
Qed.

Lemma run_returns (w : World) :
  ∃ w', run env self wait w = (Ok (), w').
Proof. apply for_range_returns. Qed.

End Run.


(** A first iteration that fetches the batch with null quotes creates the
    store with the row of ACME, then sleeps. *)
Example iteration_stores_batch :
  iteration (Scenario.replying_env Scenario.raw_batch_null_quotes)
    Scenario.acme_config Scenario.no_wait 0 (Scenario.world_with Missing)
  = (Ok (),
     {| disk := Stored Scenario.store_10_5; posts := 1;
        trace := [Sleep 7200; ToCsv Scenario.store_10_5; Post] |}).
Proof. vm_compute. reflexivity. Qed.

(** The same iteration on the batch without quote keys writes nothing. *)
Example iteration_without_batch :
  iteration (Scenario.replying_env Scenario.raw_batch)
    Scenario.acme_config Scenario.no_wait 0 (Scenario.world_with Missing)
  = (Ok (), {| disk := Missing; posts := 1; trace := [Sleep 7200; Post] |}).
Proof. vm_compute. reflexivity. Qed.

End ScraperSpec.

(** * Properties of the query service *)

Module BackEndSpec.
Import Py BackEnd.

(** ** Normalising a ticker *)

Lemma isspace_toupper (c : Ascii.ascii) : isspace (toupper c) = isspace c.
Proof. destruct c as [[] [] [] [] [] [] [] []]; reflexivity. Qed.

Lemma toupper_toupper (c : Ascii.ascii) : toupper (toupper c) = toupper c.
Proof. destruct c as [[] [] [] [] [] [] [] []]; reflexivity. Qed.

Lemma upper_upper (s : string) : upper (upper s) = upper s.
Proof.
  induction s as [|c s IH]; simpl; [done|].
  by rewrite toupper_toupper, IH.
Qed.

Lemma lstrip_upper (s : string) : lstrip (upper s) = upper (lstrip s).
Proof.
  induction s as [|c s IH]; simpl; [done|].
  rewrite isspace_toupper. by destruct (isspace c).
Qed.

Lemma rstrip_upper (s : string) : rstrip (upper s) = upper (rstrip s).
Proof.
  induction s as [|c s IH]; simpl; [done|].
  rewrite IH, isspace_toupper.
  destruct (rstrip s); simpl; [by destruct (isspace c)|done].
Qed.

Lemma lstrip_lstrip (s : string) : lstrip (lstrip s) = lstrip s.
Proof.
  induction s as [|c s IH]; simpl; [done|].
  destruct (isspace c) eqn:Hc; [done|]. simpl. by rewrite Hc.
Qed.

Lemma rstrip_rstrip (s : string) : rstrip (rstrip s) = rstrip s.
Proof.
  induction s as [|c s IH]; simpl; [done|].
  destruct (rstrip s) as [|a t] eqn:Ht.
  - destruct (isspace c) eqn:Hc; simpl; [done|]. by rewrite Hc.
  - change (rstrip (String c (String a t))) with
      (match rstrip (String a t) with
       | EmptyString => if isspace c then EmptyString
                        else String c EmptyString
       | t' => String c t'
       end).
    by rewrite IH.
Qed.

(** Stripping on the left keeps a string free of trailing blanks. *)
Lemma rstrip_lstrip (s : string) :
  rstrip s = s → rstrip (lstrip s) = lstrip s.
Proof.
  induction s as [|c s IH]; simpl; [done|].
  intros Hs. destruct (isspace c) eqn:Hc.
  - apply IH. destruct (rstrip s); [done|]. by injection Hs.
  - simpl. rewrite Hc. exact Hs.
Qed.

Lemma strip_strip (s : string) : strip (strip s) = strip s.
Proof.
  unfold strip.
  rewrite (rstrip_lstrip (rstrip s)) by apply rstrip_rstrip.
  apply lstrip_lstrip.
Qed.

Lemma normalize_normalize (s : string) :
  normalize (normalize s) = normalize s.
Proof.
  unfold normalize, strip.
  by rewrite rstrip_upper, lstrip_upper, upper_upper,
    (rstrip_lstrip (rstrip s)), lstrip_lstrip by apply rstrip_rstrip.
Qed.

(** ** Sorting by timestamp *)

#[local] Instance le_timestamp_total : Total le_timestamp.
Proof. intros a b. unfold le_timestamp. lia. Qed.
#[local] Instance ge_timestamp_total : Total ge_timestamp.
Proof. intros a b. unfold ge_timestamp. lia. Qed.
#[local] Instance le_timestamp_refl : Reflexive le_timestamp.
Proof. intros a. unfold le_timestamp. lia. Qed.
#[local] Instance le_timestamp_trans : Transitive le_timestamp.
Proof. intros a b c. unfold le_timestamp. lia. Qed.
#[local] Instance ge_timestamp_trans : Transitive ge_timestamp.
Proof. intros a b c. unfold ge_timestamp. lia. Qed.

Lemma sort_values_Permutation (ascending : bool) (l : list Row) :
  sort_values ascending l ≡ₚ l.
Proof. destruct ascending; apply merge_sort_Permutation. Qed.






(** ** Loading the store *)

Lemma load_data_Ok (fs : gmap string CsvFile) (path : string)
    (snap : DataFrame) :
  _load_data fs path = Ok snap →
  ∃ df, fs !! path = Some (Table df)
    ∧ required_columns ⊆ columns df
    ∧ columns snap = columns df
    ∧ rows snap = sort_values true (set_companyName normalize <$> rows df).
Proof.
  unfold _load_data, read_csv, try_except, mbind, result_bind, bind.
  destruct (fs !! path) as [[why|df]|]; try done.
  case_bool_decide; [|done]. case_bool_decide; [|done].
  intros [= <-]. by exists df.
Qed.


(** What the service holds after start-up: the loaded store, or the frame
    of [EmptyDataLoader]. *)
Lemma startup_df (paths : list string) (fs : gmap string CsvFile) :
  data_loader_df (startup paths fs) = EmptyDataLoader_df
  ∨ ∃ path, find_csv_file paths fs = Ok path
      ∧ _load_data fs path = Ok (data_loader_df (startup paths fs)).
Proof.
  unfold startup.
  destruct (find_csv_file paths fs) as [path|e]; [|by left].
  destruct (_load_data fs path) as [df|e] eqn:Hload; [|by left].
  right. by exists path.
Qed.




(** ** Degraded mode *)

Lemma no_rows_degraded (g : Globals) :
  rows (data_loader_df g) = [] →
  (∃ h, health_check g = Ok h ∧ data_loaded h = false)
  ∧ status_code (health_check g) = 200
  ∧ get_companies g
    = Raise (HTTPException 503
        "Servicio no disponible. No se encontraron datos. Verifique el archivo CSV.")
  ∧ status_code (get_companies g) = 503.
Proof.
  intros Hrows.
  assert (empty (data_loader_df g) = true) as Hempty.
  { unfold empty. apply bool_decide_eq_true. by left. }
  unfold health_check, get_companies. rewrite Hempty. simpl.
  split; [by eexists|done].
Qed.

(** C7.  With the store missing or empty at start-up the service holds a
    frame without rows: [/health] answers 200 with [data_loaded] false and
    [/api/companies] answers 503. *)
Theorem degraded_mode (paths : list string) (fs : gmap string CsvFile) :
  store_missing paths fs ∨ store_empty paths fs →
  rows (data_loader_df (startup paths fs)) = []
  ∧ (∃ h, health_check (startup paths fs) = Ok h ∧ data_loaded h = false)
  ∧ status_code (health_check (startup paths fs)) = 200
  ∧ status_code (get_companies (startup paths fs)) = 503.
Proof.
  intros Hstore.
  assert (rows (data_loader_df (startup paths fs)) = []) as Hrows.
  { destruct (startup_df paths fs) as [-> | (path & Hfind & Hload)]; [done|].
    apply load_data_Ok in Hload as (df & Hfile & _ & _ & ->).
    destruct Hstore as [Hmiss | (path' & Hfind' & Hfile')].
    - unfold find_csv_file in Hfind.
      destruct (list_find _ paths) as [[i p]|] eqn:Hlf; [|done].
      injection Hfind as ->.
      apply list_find_Some in Hlf as (Hi & Hsome & _).
      apply list_elem_of_lookup_2 in Hi.
      unfold store_missing in Hmiss. rewrite Forall_forall in Hmiss.
      apply Hmiss in Hi. rewrite Hi in Hsome. by destruct Hsome.
    - rewrite Hfind in Hfind'. injection Hfind' as <-.
      destruct Hfile' as [Hfile' | [header Hfile']];
        rewrite Hfile in Hfile'; [done|].
      injection Hfile' as ->. reflexivity. }
  split; [done|].
  destruct (no_rows_degraded _ Hrows) as (? & ? & ? & ?). done.
Qed.

Lemma degraded_mode_witness :
  rows (data_loader_df (startup Scenario.csv_paths ∅)) = []
  ∧ (∃ h, health_check (startup Scenario.csv_paths ∅) = Ok h
          ∧ data_loaded h = false)
  ∧ status_code (health_check (startup Scenario.csv_paths ∅)) = 200
  ∧ status_code (get_companies (startup Scenario.csv_paths ∅)) = 503.
Proof.
  apply (degraded_mode Scenario.csv_paths ∅).
  left. repeat constructor.
Defined.

(** The store with a header and no row degrades in the same way. *)
Example degraded_mode_header_only :
  health_check (startup Scenario.csv_paths Scenario.header_only_fs)
  = Ok {| status := "running"; csv_path := "data/bvl_data.csv";
          data_loaded := false;
          details := "El backend está funcionando pero sin datos" |}
  ∧ status_code
      (get_companies (startup Scenario.csv_paths Scenario.header_only_fs))
    = 503.
Proof. vm_compute. done. Qed.

(** ** [get_credicorp_data] *)

Section Credicorp.

Variable datetime_timestamp_NaT : result Z.
Variable g : Globals.
Variable now : Z.

Local Abbreviation window :=
  (filter (λ r, now - timedelta_days 30 ≤ timestamp r) (credicorp_rows g)).

(** The [HTTPException] with 404 is raised inside the [try] block, whose
    [except Exception] clause catches it and raises 500 in its place. *)
Lemma get_credicorp_data_no_match :
  credicorp_rows g = [] →
  get_credicorp_data datetime_timestamp_NaT g now
  = Raise (HTTPException 500
      "Error procesando datos de Credicorp: 404: No se encontraron datos para CREDICORP LTD.").
Proof.
  intros Hnone. unfold get_credicorp_data. rewrite Hnone. reflexivity.
Qed.

(** Whatever goes wrong, the caller sees status 500. *)
Lemma get_credicorp_data_Raise (e : exn) :
  get_credicorp_data datetime_timestamp_NaT g now = Raise e →
  ∃ detail, e = HTTPException 500 detail.
Proof.
  unfold get_credicorp_data, try_except.
  destruct (_ ≫= _); [done|]. intros [= <-]. by eexists.
Qed.

(** The answer, when there is one. *)
Lemma get_credicorp_data_Ok (view : View) :
  get_credicorp_data datetime_timestamp_NaT g now = Ok view →
  ∃ latest t_from t_to,
    list.last (credicorp_rows g) = Some latest
    ∧ datetime_timestamp datetime_timestamp_NaT
        (series_min (timestamp <$> sort_values false window)) = Ok t_from
    ∧ datetime_timestamp datetime_timestamp_NaT
        (series_max (timestamp <$> sort_values false window)) = Ok t_to
    ∧ view = {| realtime := to_quote g latest;
                historical := filter complete
                                (to_quote g <$> sort_values false window);
                metadata :=
                  {| data_points :=
                       length (filter complete
                                 (to_quote g <$> sort_values false window));
                     time_range_from := t_from;
                     time_range_to := t_to |} |}.
Proof.
  unfold get_credicorp_data, try_except, mbind, result_bind, bind, iloc_last.
  case_bool_decide; [done|].
  destruct (list.last (credicorp_rows g)) as [latest|]; [|done].
  destruct (datetime_timestamp _ (series_min _)) as [t_from|]; [|done].
  destruct (datetime_timestamp _ (series_max _)) as [t_to|]; [|done].
  intros [= <-]. by eexists _, _, _.
Qed.



End Credicorp.

(** C6, as the code behaves.  When no row matches the ticker, the 404
    raised by the endpoint is caught by its own [except] clause and the
    caller receives 500. *)
Theorem unknown_ticker_yields_500
    (datetime_timestamp_NaT : result Z) (g : Globals) (now : Z) :
  rows (data_loader_df g) ≠ [] →
  credicorp_rows g = [] →
  status_code (get_credicorp_data datetime_timestamp_NaT g now) = 500
  ∧ ∃ detail,
      get_credicorp_data datetime_timestamp_NaT g now
      = Raise (HTTPException 500
          ("Error procesando datos de Credicorp: "
           +:+ str (HTTPException 404 detail))).
Proof.
  intros _ Hnone. rewrite get_credicorp_data_no_match by done.
  split; [done|]. by eexists.
Qed.

Lemma unknown_ticker_yields_500_witness :
  status_code
    (get_credicorp_data Scenario.NaT_raises
       (startup Scenario.csv_paths Scenario.other_only_fs)
       Scenario.request_time) = 500
  ∧ ∃ detail,
      get_credicorp_data Scenario.NaT_raises
        (startup Scenario.csv_paths Scenario.other_only_fs)
        Scenario.request_time
      = Raise (HTTPException 500
          ("Error procesando datos de Credicorp: "
           +:+ str (HTTPException 404 detail))).
Proof.
  apply (unknown_ticker_yields_500 Scenario.NaT_raises
           (startup Scenario.csv_paths Scenario.other_only_fs)
           Scenario.request_time);
    [vm_compute; discriminate | vm_compute; reflexivity].
Defined.

(** ** The historical window *)

Lemma to_quote_timestamp (g : Globals) (r : Row) :
  quote_timestamp (to_quote g r) = timestamp r.
Proof. done. Qed.




(** ** The metadata *)

Lemma series_min_spec (l : list Z) (m : Z) :
  series_min l = Timestamp m → m ∈ l ∧ ∀ x, x ∈ l → m ≤ x.
Proof.
  destruct l as [|t l]; [done|]. simpl. intros [= <-].
  induction l as [|y l [IHin IHle]]; simpl.
  - split; [by left|]. intros x ->%list_elem_of_singleton. lia.
  - split.
    + destruct (Z.min_spec y (foldr Z.min t l)) as [[_ ->]|[_ ->]].
      * right. by left.
      * apply elem_of_cons in IHin as [->|?]; [by left|].
        right. by right.
    + intros x Hx. apply elem_of_cons in Hx as [->|Hx].
      * etrans; [apply Z.le_min_r|]. apply IHle. by left.
      * apply elem_of_cons in Hx as [->|Hx]; [apply Z.le_min_l|].
        etrans; [apply Z.le_min_r|]. apply IHle. by right.
Qed.

Lemma series_max_spec (l : list Z) (m : Z) :
  series_max l = Timestamp m → m ∈ l ∧ ∀ x, x ∈ l → x ≤ m.
Proof.
  destruct l as [|t l]; [done|]. simpl. intros [= <-].
  induction l as [|y l [IHin IHle]]; simpl.
  - split; [by left|]. intros x ->%list_elem_of_singleton. lia.
  - split.
    + destruct (Z.max_spec y (foldr Z.max t l)) as [[_ ->]|[_ ->]].
      * apply elem_of_cons in IHin as [->|?]; [by left|].
        right. by right.
      * right. by left.
    + intros x Hx. apply elem_of_cons in Hx as [->|Hx].
      * etrans; [|apply Z.le_max_r]. apply IHle. by left.
      * apply elem_of_cons in Hx as [->|Hx]; [apply Z.le_max_l|].
        etrans; [|apply Z.le_max_r]. apply IHle. by right.
Qed.

(** C5, as the code behaves.  [data_points] is the length of [historical]
    after the incomplete entries were dropped.  When a row of the ticker
    lies inside the window, the time range runs from the least to the
    greatest timestamp of the ticker's rows inside the window, the rows
    dropped from [historical] included. *)
Theorem metadata_count_and_window_range
    (datetime_timestamp_NaT : result Z) (g : Globals) (now : Z)
    (view : View) :
  get_credicorp_data datetime_timestamp_NaT g now = Ok view →
  data_points (metadata view) = length (historical view)
  ∧ (filter (λ r, now - timedelta_days 30 ≤ timestamp r)
       (credicorp_rows g) ≠ [] →
     let stamps :=
       timestamp <$> filter (λ r, now - timedelta_days 30 ≤ timestamp r)
                       (credicorp_rows g) in
     time_range_from (metadata view) ∈ stamps
     ∧ (∀ t, t ∈ stamps → time_range_from (metadata view) ≤ t)
     ∧ time_range_to (metadata view) ∈ stamps
     ∧ (∀ t, t ∈ stamps → t ≤ time_range_to (metadata view))).
Proof.
  intros (latest & t_from & t_to & _ & Hfrom & Hto & ->)%get_credicorp_data_Ok.
  cbn [historical metadata data_points time_range_from time_range_to].
  split; [done|]. intros Hwin.
  assert (sort_values false
            (filter (λ r, now - timedelta_days 30 ≤ timestamp r)
               (credicorp_rows g)) ≠ []) as Hsorted.
  { intros Hnil. apply Hwin, Permutation_nil_r.
    by rewrite <-Hnil, sort_values_Permutation. }
  destruct (series_min _) as [|m] eqn:Hmin.
  { destruct (sort_values false _); done. }
  destruct (series_max _) as [|M] eqn:Hmax.
  { destruct (sort_values false _); done. }
  simpl in Hfrom, Hto. injection Hfrom as ->. injection Hto as ->.
  apply series_min_spec in Hmin as [Hmin_in Hmin_le].
  apply series_max_spec in Hmax as [Hmax_in Hmax_le].
  rewrite sort_values_Permutation in Hmin_in, Hmax_in.
  repeat split; [done| |done|].
  - intros t Ht. apply Hmin_le. by rewrite sort_values_Permutation.
  - intros t Ht. apply Hmax_le. by rewrite sort_values_Permutation.
Qed.

Lemma metadata_count_and_window_range_witness :
  ∃ view,
    let g := startup Scenario.csv_paths Scenario.csv_fs in
    let stamps :=
      timestamp <$>
        filter (λ r, Scenario.request_time - timedelta_days 30
                     ≤ timestamp r)
          (credicorp_rows g) in
    get_credicorp_data Scenario.NaT_raises g Scenario.request_time = Ok view
    ∧ data_points (metadata view) = length (historical view)
    ∧ time_range_from (metadata view) ∈ stamps
    ∧ (∀ t, t ∈ stamps → time_range_from (metadata view) ≤ t)
    ∧ time_range_to (metadata view) ∈ stamps
    ∧ (∀ t, t ∈ stamps → t ≤ time_range_to (metadata view)).
Proof.
  eexists. split; [vm_compute; reflexivity|].
  destruct (metadata_count_and_window_range Scenario.NaT_raises
              (startup Scenario.csv_paths Scenario.csv_fs)
              Scenario.request_time _ eq_refl) as [Hcount Hrange].
  split; [exact Hcount|]. apply Hrange. vm_compute. discriminate.
Defined.

(** C5 as the claim has it fails.  The newest quote of the ticker has no
    last price: it is dropped from [historical], whose greatest timestamp
    is day 98, while the range still ends at day 99. *)
Lemma metadata_range_counts_dropped_rows :
  ∃ view,
    get_credicorp_data Scenario.NaT_raises
      (startup Scenario.csv_paths Scenario.csv_fs) Scenario.request_time
    = Ok view
    ∧ series_max (quote_timestamp <$> historical view)
      = Timestamp (98 * Scenario.day)
    ∧ time_range_to (metadata view) = 99 * Scenario.day
    ∧ series_max (quote_timestamp <$> historical view)
      ≠ Timestamp (time_range_to (metadata view)).
Proof. eexists. vm_compute. done. Qed.

(** With every quote of the ticker older than 30 days, the range is not
    left out: the request fails with 500 where [datetime.timestamp]
    rejects [NaT], and reports the same placeholder number on both ends
    where it accepts it. *)
Example metadata_empty_window_raises :
  get_credicorp_data Scenario.NaT_raises
    (startup Scenario.csv_paths Scenario.csv_fs) (200 * Scenario.day)
  = Raise (HTTPException 500
      "Error procesando datos de Credicorp: year 0 is out of range").
Proof. vm_compute. reflexivity. Qed.

Example metadata_empty_window_placeholder :
  ∃ view,
    get_credicorp_data (Ok (-62135596800))
      (startup Scenario.csv_paths Scenario.csv_fs) (200 * Scenario.day)
    = Ok view
    ∧ historical view = []
    ∧ metadata view = {| data_points := 0;
                         time_range_from := -62135596800;
                         time_range_to := -62135596800 |}.
Proof. eexists. vm_compute. done. Qed.

End BackEndSpec.

(** * Further properties of the scraper *)

Module ScraperMore.
Import Py Scraper ScraperSpec.

(** ** More on [drop_duplicates(..., keep='last')] *)

Section KeepLastMore.

Variable subset : list string.

Local Abbreviation key := (key_of subset).

(** Rows without a repeated key are all kept. *)
Lemma keep_last_NoDup_id (l : list record) :
  NoDup (key <$> l) → keep_last subset l = l.
Proof.
  induction l as [|r t IH]; [done|].
  rewrite fmap_cons, NoDup_cons. intros [Hr Ht]. simpl.
  rewrite decide_False by done. by rewrite IH.
Qed.

(** Deduplicating a concatenation: the rows of the first part survive
    unless the second part has their key, and the second part follows. *)
Lemma keep_last_app (l1 l2 : list record) :
  keep_last subset (l1 ++ l2)
  = filter (λ r, key r ∉ key <$> l2) (keep_last subset l1)
    ++ keep_last subset l2.
Proof.
  induction l1 as [|r t IH]; simpl; [done|].
  destruct (decide (key r ∈ key <$> t)) as [Hin|Hnin].
  - rewrite decide_True; [done|]. rewrite fmap_app, elem_of_app. by left.
  - destruct (decide (key r ∈ key <$> l2)) as [Hin2|Hnin2].
    + rewrite decide_True by (rewrite fmap_app, elem_of_app; by right).
      rewrite filter_cons_False by (intros Hn; by apply Hn). done.
    + rewrite decide_False
        by (rewrite fmap_app, elem_of_app; intros [?|?]; done).
      rewrite filter_cons_True by done. simpl. by rewrite IH.
Qed.



End KeepLastMore.

(** ** [save_data] *)



(** X2.  A store without repeated keys is merged by keeping its rows, in
    their order and as they are, except those whose key the batch brings;
    the batch's rows, deduplicated, come after them. *)
Theorem save_data_keeps_other_rows
    (env : Env) (existing df : DataFrame) (w : World) :
  writable env = true →
  disk w = Stored existing →
  "timestamp" ∈ columns df →
  "companyName" ∈ columns df →
  NoDup (key_of dedup_key <$> rows existing) →
  ∃ merged w',
    save_data env df w = (Ok true, w') ∧ disk w' = Stored merged
    ∧ rows merged
      = filter (λ r, key_of dedup_key r ∉ key_of dedup_key <$> rows df)
          (rows existing)
        ++ keep_last dedup_key (rows df).
Proof.
  intros Hw Hd Ht Hc Hnodup.
  destruct (save_data_stored env existing df w Hw Hd Ht Hc)
    as (merged & Hsave & _ & Hrows).
  eexists merged, _. split; [exact Hsave|]. split; [done|].
  by rewrite Hrows, keep_last_app, keep_last_NoDup_id.
Qed.

Lemma save_data_keeps_other_rows_witness :
  ∃ merged w',
    save_data Scenario.quiet_env Scenario.batch_11_0
      (Scenario.world_with (Stored Scenario.store_two_days)) = (Ok true, w')
    ∧ disk w' = Stored merged
    ∧ rows merged
      = filter (λ r, key_of dedup_key r
                     ∉ key_of dedup_key <$> rows Scenario.batch_11_0)
          (rows Scenario.store_two_days)
        ++ keep_last dedup_key (rows Scenario.batch_11_0).
Proof.
  apply (save_data_keeps_other_rows Scenario.quiet_env
           Scenario.store_two_days Scenario.batch_11_0
           (Scenario.world_with (Stored Scenario.store_two_days)));
    [reflexivity | reflexivity | vm_compute; reflexivity
    | vm_compute; reflexivity | ].
  apply (bool_decide_unpack (NoDup _)). vm_compute. exact I.
Defined.

Lemma check_columns_dedup_key (df : DataFrame) :
  check_columns dedup_key df = Ok ()
  ↔ "timestamp" ∈ columns df ∧ "companyName" ∈ columns df.
Proof.
  split.
  - intros Hok.
    destruct (decide (Forall (λ c, c ∈ columns df) dedup_key))
      as [Hall|Hnot].
    + inversion_clear Hall as [|? ? Ht Hrest].
      by inversion_clear Hrest as [|? ? Hc _].
    + apply check_columns_missing in Hnot as [c Hc]. congruence.
  - intros [Ht Hc]. apply check_columns_ok. by repeat constructor.
Qed.

(** What [save_data] does to the world: it never raises, sends no
    request, and touches nothing but the output file. *)
Lemma save_data_effects (env : Env) (df : DataFrame) (w : World) :
  ∃ ok w' new,
    save_data env df w = (Ok ok, w')
    ∧ posts w' = posts w
    ∧ trace w' = new ++ trace w
    ∧ Forall (λ e, is_store_access e = true) new
    ∧ (ok = true ↔
       writable env = true
       ∧ match disk w with
         | Missing => True
         | Unreadable => False
         | Stored existing_data =>
             "timestamp" ∈ columns existing_data ∪ columns df
             ∧ "companyName" ∈ columns existing_data ∪ columns df
         end)
    ∧ (if ok
       then match disk w with
            | Stored existing_data =>
                ∃ combined, disk w' = Stored combined
                  ∧ rows combined
                    = keep_last dedup_key (rows existing_data ++ rows df)
            | _ => disk w' = Stored df
            end
       else disk w' = disk w).
Proof.
  destruct w as [d p t].
  unfold save_data, try_io, mbind, IO_bind, read_csv, lift, to_csv,
    path_exists, drop_duplicates, mbind, result_bind, bind, log. simpl.
  destruct d as [| |existing_data]; simpl.
  - destruct (writable env).
    + eexists true, _, [_]. repeat split; try done. by repeat constructor.
    + eexists false, _, [_]. repeat split; try done.
      * by repeat constructor.
      * intros [? _]. done.
  - eexists false, _, [_]. repeat split; try done.
    + by repeat constructor.
    + intros [_ []].
  - destruct (check_columns dedup_key (concat existing_data df))
      as [[]|e] eqn:Hcheck; simpl.
    + apply check_columns_dedup_key in Hcheck. simpl in Hcheck.
      destruct (writable env).
      * eexists true, _, [_; _]. repeat split; try done; try tauto.
        -- by repeat constructor.
        -- by eexists {| columns := _; rows := _ |}.
      * eexists false, _, [_; _]. repeat split; try done.
        -- by repeat constructor.
        -- intros [? _]. done.
    + eexists false, _, [_]. repeat split; try done.
      * by repeat constructor.
      * intros [_ Hcols]. apply (check_columns_dedup_key
          (concat existing_data df)) in Hcols. congruence.
Qed.


(** ** [process_data] *)

Section ProcessDataMore.

Variable self : Config.
Variable now : string.

Lemma check_columns_quotes (df : DataFrame) :
  check_columns ["buy"; "sell"] df = Ok ()
  ↔ "buy" ∈ columns df ∧ "sell" ∈ columns df.
Proof.
  split.
  - intros Hok.
    destruct (decide (Forall (λ c, c ∈ columns df) ["buy"; "sell"]))
      as [Hall|Hnot].
    + inversion_clear Hall as [|? ? Hb Hrest].
      by inversion_clear Hrest as [|? ? Hs _].
    + apply check_columns_missing in Hnot as [c Hc]. congruence.
  - intros [Hb Hs]. apply check_columns_ok. by repeat constructor.
Qed.

Lemma cell_insert_ne (r : record) (c c' : string) (v : scalar) :
  c ≠ c' → cell (<[ c := v ]> r) c' = cell r c'.
Proof. intros Hne. unfold cell. by rewrite lookup_insert_ne. Qed.

(** Where a batch comes from. *)
Lemma process_data_Some (data : gmap string json) (df : DataFrame) :
  process_data self now data = Some df →
  ∃ l, data !! "content" = Some (JList l)
    ∧ filter (is_target self) l ≠ []
    ∧ "buy" ∈ columns (DataFrame_of (filter (is_target self) l))
    ∧ "sell" ∈ columns (DataFrame_of (filter (is_target self) l))
    ∧ rows df
      = (λ r, <[ "timestamp" := SStr now ]>
                (foldl (fillna_cell (SNum 0%Q)) r ["buy"; "sell"]))
        <$> filter (is_target self) l.
Proof.
  intros Hsome.
  destruct (data !! "content") as [[v|l|d]|] eqn:Hdata;
    try (unfold process_data in Hsome; rewrite Hdata in Hsome; done).
  exists l. split; [done|].
  destruct (decide (filter (is_target self) l = [])) as [Hnil|Hne].
  { rewrite process_data_no_target in Hsome; [done|].
    by rewrite Hdata. }
  split; [done|].
  destruct (decide
    ("buy" ∈ columns (DataFrame_of (filter (is_target self) l))
     ∧ "sell" ∈ columns (DataFrame_of (filter (is_target self) l))))
    as [[Hb Hs]|Hmiss].
  - rewrite (process_data_batch self now data l) in Hsome by done.
    injection Hsome as <-. done.
  - rewrite (process_data_missing_quote_column self now data l) in Hsome;
      [done..|].
    apply not_and_l in Hmiss. tauto.
Qed.

(** X4.  Every row of a batch carries the one timestamp of the batch, the
    name of a target company, and a value in both quote columns; and a
    batch has at least one row. *)
Theorem process_data_batch_rows (data : gmap string json) (df : DataFrame) :
  process_data self now data = Some df →
  rows df ≠ []
  ∧ Forall (λ r, cell r "timestamp" = SStr now
                 ∧ (∃ name, cell r "companyName" = SStr name
                            ∧ name ∈ target_companies self)
                 ∧ cell r "buy" ≠ SNull
                 ∧ cell r "sell" ≠ SNull) (rows df).
Proof.
  intros (l & _ & Hne & _ & _ & ->)%process_data_Some.
  split.
  { intros Hnil%fmap_nil_inv. done. }
  apply Forall_fmap, Forall_forall. intros r [Htarget _]%list_elem_of_filter.
  simpl. split; [|split; [|split]].
  - unfold cell. by rewrite lookup_insert_eq.
  - unfold is_target in Htarget.
    destruct (r !! "companyName") as [[| |?|name]|] eqn:Hname; try done.
    exists name. split; [|by eapply bool_decide_unpack].
    rewrite cell_insert_ne by done.
    rewrite !cell_fillna_cell. simpl. unfold cell. by rewrite Hname.
  - rewrite cell_insert_ne by done.
    rewrite !cell_fillna_cell. simpl. by destruct (cell r "buy").
  - rewrite cell_insert_ne by done.
    rewrite !cell_fillna_cell. simpl. by destruct (cell r "sell").
Qed.

(** X5.  [process_data] gives no batch exactly when the response has no
    list under ["content"], or the list has no record of a target
    company, or no kept record has a ["buy"] key, or none has a ["sell"]
    key. *)
Theorem process_data_None_iff (data : gmap string json) :
  process_data self now data = None
  ↔ ¬ ∃ l, data !! "content" = Some (JList l)
        ∧ filter (is_target self) l ≠ []
        ∧ "buy" ∈ columns (DataFrame_of (filter (is_target self) l))
        ∧ "sell" ∈ columns (DataFrame_of (filter (is_target self) l)).
Proof.
  split.
  - intros Hnone (l & Hdata & Hne & Hb & Hs).
    by rewrite (process_data_batch self now data l) in Hnone.
  - intros Hnot.
    destruct (process_data self now data) as [df|] eqn:Hsome; [|done].
    destruct Hnot.
    apply process_data_Some in Hsome as (l & ? & ? & ? & ? & _). eauto.
Qed.

End ProcessDataMore.

Lemma process_data_batch_rows_witness :
  rows Scenario.store_10_5 ≠ []
  ∧ Forall (λ r, cell r "timestamp" = SStr "T1"
                 ∧ (∃ name, cell r "companyName" = SStr name
                            ∧ name ∈ target_companies Scenario.acme_config)
                 ∧ cell r "buy" ≠ SNull
                 ∧ cell r "sell" ≠ SNull) (rows Scenario.store_10_5).
Proof.
  apply (process_data_batch_rows Scenario.acme_config "T1"
           Scenario.raw_batch_null_quotes Scenario.store_10_5).
  vm_compute. reflexivity.
Defined.

(** ** [run] *)

Lemma store_access_not_post_nor_sleep (l : list event) :
  Forall (λ e, is_store_access e = true) l →
  filter is_post l = [] ∧ filter is_sleep l = []
  ∧ Forall (λ e, is_sleep e → False) l.
Proof.
  induction 1 as [|e l He Hl (IHp & IHs & IHf)]; [done|].
  destruct e; try done; rewrite !filter_cons; simpl;
    (split; [done|]; split; [done|]); by constructor.
Qed.

Section RunMore.

Variable env : Env.
Variable self : Config.
Variable wait : nat → Z.

(** What one iteration does: one request, at most one sleep of
    [wait_time] seconds and only before a further iteration, and a file
    that is left alone or replaced by a merge. *)
Lemma iteration_effects (i : nat) (w : World) :
  ∃ w' new,
    iteration env self wait i w = (Ok (), w')
    ∧ posts w' = S (posts w)
    ∧ trace w' = new ++ trace w
    ∧ length (filter is_post new) = 1%nat
    ∧ Forall (λ e, is_sleep e → e = Sleep (wait_time self)) new
    ∧ (length (filter is_sleep new)
       ≤ if bool_decide (Z.of_nat i < Z.of_nat (iterations self) - 1)%Z
         then 1 else 0)%nat
    ∧ (failing (upstream env (posts w)) → w' = posted w)
    ∧ (∀ existing_data, disk w = Stored existing_data →
         disk w' = disk w
         ∨ ∃ combined df,
             disk w' = Stored combined
             ∧ rows combined
               = keep_last dedup_key (rows existing_data ++ rows df)).
Proof.
  destruct (fetch_data_returns env wait w) as (data & Hcall & Hfail).
  unfold iteration, mbind, IO_bind. rewrite Hcall.
  destruct (falsy data) eqn:Hfalsy.
  { exists (posted w), [Post].
    split; [done|]. split; [done|]. split; [done|]. split; [done|].
    split; [by repeat constructor|].
    split; [simpl; case_bool_decide; lia|].
    split; [done|]. intros ? _. by left. }
  simpl.
  assert (¬ failing (upstream env (posts w))) as Hgood.
  { intros Hbad. rewrite (Hfail Hbad) in Hfalsy. done. }
  destruct (process_data self _ _) as [df|]; simpl.
  - destruct (save_data_effects env df (posted w))
      as (ok & w1 & acc & Hsave & Hposts & Htrace & Hacc & _ & Hdisk).
    rewrite Hsave. simpl.
    destruct (store_access_not_post_nor_sleep acc Hacc)
      as (Hnp & Hns & Hnf).
    assert (∀ existing_data, disk w = Stored existing_data →
              disk w1 = disk w
              ∨ ∃ combined df0,
                  disk w1 = Stored combined
                  ∧ rows combined
                    = keep_last dedup_key
                        (rows existing_data ++ rows df0)) as Hstore.
    { intros existing_data Hex. destruct ok; [|by left].
      simpl in Hdisk. rewrite Hex in Hdisk.
      destruct Hdisk as (combined & ? & ?). right. by exists combined, df. }
    case_bool_decide.
    + exists (log (Sleep (wait_time self)) w1),
        (Sleep (wait_time self) :: acc ++ [Post]).
      split; [done|]. split; [simpl; by rewrite Hposts|].
      split; [simpl; by rewrite Htrace, <-app_assoc|].
      split; [rewrite filter_cons_False by (by intros []);
              by rewrite filter_app, Hnp|].
      split.
      { constructor; [done|]. apply Forall_app. split.
        - eapply Forall_impl; [exact Hnf|]. simpl. tauto.
        - by repeat constructor. }
      split.
      { rewrite filter_cons_True by done. rewrite filter_app, Hns.
        simpl. lia. }
      split; [done|]. exact Hstore.
    + exists w1, (acc ++ [Post]).
      split; [done|]. split; [simpl; by rewrite Hposts|].
      split; [by rewrite Htrace, <-app_assoc|].
      split; [by rewrite filter_app, Hnp|].
      split.
      { apply Forall_app. split.
        - eapply Forall_impl; [exact Hnf|]. simpl. tauto.
        - by repeat constructor. }
      split; [rewrite filter_app, Hns; simpl; lia|].
      split; [done|]. exact Hstore.
  - case_bool_decide.
    + exists (log (Sleep (wait_time self)) (posted w)),
        [Sleep (wait_time self); Post].
      split; [done|]. split; [done|]. split; [done|]. split; [done|].
      split; [by repeat constructor|]. split; [simpl; lia|].
      split; [done|]. intros ? _. by left.
    + exists (posted w), [Post].
      split; [done|]. split; [done|]. split; [done|]. split; [done|].
      split; [by repeat constructor|]. split; [simpl; lia|].
      split; [done|]. intros ? _. by left.
Qed.




Lemma for_range_failing_upstream (i n : nat) (w : World) :
  (∀ k, failing (upstream env k)) →
  for_range (iteration env self wait) i n w
  = (Ok (), {| disk := disk w; posts := (posts w + n)%nat;
               trace := replicate n Post ++ trace w |}).
Proof.
  intros Hfail. revert i w. induction n as [|n IH]; intros i w; simpl.
  { destruct w. simpl. by rewrite Nat.add_0_r. }
  destruct (iteration_effects i w)
    as (w1 & new1 & Hstep & _ & _ & _ & _ & _ & Hskip & _).
  unfold mbind, IO_bind. rewrite Hstep, (Hskip (Hfail _)), IH.
  simpl. do 2 f_equal; [lia|].
  change (Post :: trace w) with ([Post] ++ trace w).
  rewrite app_assoc. f_equal.
  change (Post :: replicate n Post) with (replicate (S n) Post).
  by rewrite <-replicate_S_end.
Qed.

(** X8.  Against an upstream that fails at every request, [run] sends its
    requests one after the other: it never sleeps, since a failed fetch
    skips the wait, never touches the file, and ends after [iterations]
    requests. *)
Theorem run_failing_upstream (w : World) :
  (∀ k, failing (upstream env k)) →
  run env self wait w
  = (Ok (), {| disk := disk w; posts := (posts w + iterations self)%nat;
               trace := replicate (iterations self) Post ++ trace w |}).
Proof. apply for_range_failing_upstream. Qed.



End RunMore.

Lemma run_failing_upstream_witness :
  run Scenario.quiet_env Scenario.acme_config Scenario.no_wait
    (Scenario.world_with Missing)
  = (Ok (), {| disk := Missing; posts := 3; trace := [Post; Post; Post] |}).
Proof.
  apply (run_failing_upstream Scenario.quiet_env Scenario.acme_config
           Scenario.no_wait (Scenario.world_with Missing)).
  intros k. exact I.
Defined.


(** ** [load_config] *)

Section Config.

Variable environ : gmap string string.
Variable files : gmap string (option (gmap string cfg_value)).

Lemma args_given_lookup (cli : Args) (k : string) :
  args_given cli !! k
  = (if bool_decide (k = "wait_time") then times_60 else id)
    <$> (parse_arguments cli !! k) ≫= id.
Proof.
  unfold args_given. case_bool_decide as Hdom.
  - rewrite lookup_alter. case_decide as Hk.
    + subst k. rewrite bool_decide_eq_true_2 by done.
      by rewrite lookup_omap.
    + rewrite bool_decide_eq_false_2 by done.
      rewrite lookup_omap. by destruct (_ ≫= _).
  - rewrite lookup_omap. case_bool_decide as Hk.
    + subst k. apply not_elem_of_dom in Hdom.
      rewrite lookup_omap in Hdom. by rewrite Hdom.
    + by destruct (_ ≫= _).
Qed.

Lemma config_after_file_default (config_file : option string) (k : string) :
  is_Some (get_default_config environ !! k) →
  is_Some (config_after_file environ files config_file !! k).
Proof.
  intros Hk. unfold config_after_file.
  destruct config_file as [path|]; [|done].
  case_bool_decide; [|done].
  destruct (files !! path) as [[file_config|]|]; try done.
  apply lookup_union_is_Some. by right.
Qed.

(** X10.  The number given with [--wait-time] is taken as minutes: the
    configuration holds it multiplied by 60, whatever the file and the
    defaults say. *)
Theorem load_config_wait_time_in_minutes
    (cli : Args) (config_file : option string) (minutes : Z) :
  arg_wait_time cli = Some minutes →
  load_config environ files cli config_file !! "wait_time"
  = Some (CInt (minutes * 60)).
Proof.
  intros Hcli. unfold load_config.
  apply lookup_union_Some_l. rewrite args_given_lookup.
  unfold parse_arguments. simplify_map_eq. by try rewrite Hcli.
Qed.

(** X11.  For every other entry the command line wins over the
    configuration file, and the file wins over the defaults; a
    [wait_time] that comes from the file is kept as it is, in seconds. *)
Theorem load_config_precedence
    (cli : Args) (path : string) (file_config : gmap string cfg_value)
    (k : string) :
  path ≠ "" →
  files !! path = Some (Some file_config) →
  k ≠ "wait_time" ∨ arg_wait_time cli = None →
  load_config environ files cli (Some path) !! k
  = match parse_arguments cli !! k with
    | Some (Some v) => Some v
    | _ => match file_config !! k with
           | Some v => Some v
           | None => get_default_config environ !! k
           end
    end.
Proof.
  intros Hpath Hfile Hk. unfold load_config.
  rewrite lookup_union, args_given_lookup. unfold config_after_file.
  rewrite (bool_decide_eq_true_2 (path ≠ "")) by done.
  rewrite Hfile, lookup_union.
  destruct (parse_arguments cli !! k) as [[v|]|] eqn:Hargs; simpl.
  - case_bool_decide as Hwt; simpl.
    + subst k. destruct Hk as [|Hcli]; [done|]. exfalso.
      unfold parse_arguments in Hargs.
      by (simplify_map_eq; try rewrite Hcli in Hargs).
    + by destruct (file_config !! k), (get_default_config environ !! k).
  - by destruct (file_config !! k), (get_default_config environ !! k).
  - by destruct (file_config !! k), (get_default_config environ !! k).
Qed.

(** X12.  No option of the command line reaches [target_companies]:
    [--companies] is stored under the key ["companies"], which the
    fetcher does not read, so the targets are those of the file or of the
    defaults. *)
Theorem load_config_targets_not_from_cli
    (cli : Args) (config_file : option string) :
  load_config environ files cli config_file !! "target_companies"
  = config_after_file environ files config_file !! "target_companies"
  ∧ load_config environ files cli config_file !! "companies"
    = match companies cli with
      | Some l => Some (CList (SStr <$> l))
      | None => config_after_file environ files config_file !! "companies"
      end.
Proof.
  unfold load_config. split.
  - apply lookup_union_r. rewrite args_given_lookup.
    unfold parse_arguments. by simplify_map_eq.
  - destruct (companies cli) as [l|] eqn:Hl.
    + apply lookup_union_Some_l. rewrite args_given_lookup.
      unfold parse_arguments. simplify_map_eq. by try rewrite Hl.
    + apply lookup_union_r. rewrite args_given_lookup.
      unfold parse_arguments. simplify_map_eq. by try rewrite Hl.
Qed.

Lemma mapM_subscript_Ok (config : gmap string cfg_value)
    (keys : list string) :
  Forall (λ k, is_Some (config !! k)) keys →
  ∃ values, mapM (subscript config) keys = Ok values.
Proof.
  induction 1 as [|k keys [v Hv] _ [values IH]]; simpl; [by eexists|].
  rewrite IH. unfold subscript. rewrite Hv. by eexists.
Qed.

(** X13.  Whatever the environment, the file and the command line, the
    loaded configuration has every key that the constructor of the
    fetcher subscripts: none of them raises [KeyError]. *)
Theorem load_config_has_init_keys
    (cli : Args) (config_file : option string) :
  ∃ values,
    init_subscripts (load_config environ files cli config_file)
    = Ok values.
Proof.
  apply mapM_subscript_Ok. unfold init_keys, load_config.
  repeat constructor; apply lookup_union_is_Some; right;
    apply config_after_file_default; unfold get_default_config;
    simplify_map_eq; eauto.
Qed.

End Config.

Lemma load_config_wait_time_in_minutes_witness :
  load_config ∅ ∅ Scenario.cli_wait_30 None !! "wait_time"
  = Some (CInt 1800).
Proof.
  apply (load_config_wait_time_in_minutes ∅ ∅ Scenario.cli_wait_30 None 30).
  reflexivity.
Defined.

Lemma load_config_precedence_witness :
  load_config ∅ Scenario.config_files Scenario.cli_wait_30
    (Some "config.json") !! "iterations"
  = Some (CInt 5).
Proof.
  apply (load_config_precedence ∅ Scenario.config_files
           Scenario.cli_wait_30 "config.json" Scenario.config_json
           "iterations"); [done | reflexivity | by left].
Defined.

End ScraperMore.

(** * Further properties of the query service *)

Module BackEndMore.
Import Py BackEnd BackEndSpec.

#[local] Existing Instances le_timestamp_total ge_timestamp_total
  le_timestamp_refl le_timestamp_trans ge_timestamp_trans.

(** ** Finding and loading the store *)

(** X14.  [find_csv_file] returns the first candidate path that exists,
    in the order of the list, and raises [FileNotFoundError] exactly when
    none exists. *)
Theorem find_csv_file_first_existing
    (paths : list string) (fs : gmap string CsvFile) :
  match find_csv_file paths fs with
  | Ok path =>
      ∃ i, paths !! i = Some path
        ∧ is_Some (fs !! path)
        ∧ ∀ j earlier, (j < i)%nat → paths !! j = Some earlier →
                       fs !! earlier = None
  | Raise e =>
      (∃ msg, e = FileNotFoundError msg) ∧ store_missing paths fs
  end.
Proof.
  unfold find_csv_file.
  destruct (list_find _ paths) as [[i path]|] eqn:Hfind.
  - apply list_find_Some in Hfind as (Hi & Hsome & Hfirst).
    exists i. split; [done|]. split; [done|].
    intros j earlier Hlt Hj. apply eq_None_not_Some. by eapply Hfirst.
  - split; [by eexists|]. apply list_find_None in Hfind.
    eapply Forall_impl; [exact Hfind|]. intros p. simpl.
    apply eq_None_not_Some.
Qed.



(** ** [get_companies] and [health_check] *)

Lemma elem_of_unique (l : list string) (x : string) :
  x ∈ unique l ↔ x ∈ l.
Proof.
  induction l as [|y t IH]; simpl; [done|].
  rewrite !elem_of_cons, list_elem_of_filter, IH.
  destruct (decide (x = y)); tauto.
Qed.

Lemma NoDup_unique (l : list string) : NoDup (unique l).
Proof.
  induction l as [|y t IH]; simpl; [constructor|].
  constructor; [|by apply NoDup_filter].
  rewrite list_elem_of_filter. by intros [Hne _].
Qed.

(** X16.  When [get_companies] answers, its list has no repetition, names
    exactly the companies of the snapshot, and every name in it is
    stripped and upper-cased. *)
Theorem get_companies_distinct_normalized
    (paths : list string) (fs : gmap string CsvFile) (l : list string) :
  get_companies (startup paths fs) = Ok l →
  NoDup l
  ∧ l ≠ []
  ∧ (∀ x, x ∈ l ↔
          ∃ r, r ∈ rows (data_loader_df (startup paths fs))
               ∧ companyName r = x)
  ∧ (∀ x, x ∈ l → normalize x = x).
Proof.
  unfold get_companies.
  destruct (empty (data_loader_df (startup paths fs))) eqn:Hempty; [done|].
  intros [= <-].
  assert (∀ x, x ∈ unique (companyName <$>
                             rows (data_loader_df (startup paths fs))) ↔
               ∃ r, r ∈ rows (data_loader_df (startup paths fs))
                    ∧ companyName r = x) as Hmem.
  { intros x. rewrite elem_of_unique, list_elem_of_fmap.
    split; intros (r & ? & ?); by exists r. }
  split; [apply NoDup_unique|]. split; [|split; [done|]].
  - unfold empty in Hempty. apply bool_decide_eq_false in Hempty.
    destruct (rows (data_loader_df (startup paths fs))) as [|r t] eqn:Hrows.
    { destruct Hempty. by left. }
    simpl. done.
  - intros x (r & Hr & <-)%Hmem.
    destruct (startup_df paths fs) as [Hnone | (path & _ & Hload)].
    { rewrite Hnone in Hr. by apply not_elem_of_nil in Hr. }
    apply load_data_Ok in Hload as (df & _ & _ & _ & Hrows).
    rewrite Hrows, sort_values_Permutation in Hr.
    apply list_elem_of_fmap in Hr as (r0 & -> & _). simpl.
    apply normalize_normalize.
Qed.

Lemma get_companies_distinct_normalized_witness :
  NoDup ["CREDICORP LTD."; "OTHER"]
  ∧ ["CREDICORP LTD."; "OTHER"] ≠ []
  ∧ (∀ x, x ∈ ["CREDICORP LTD."; "OTHER"] ↔
          ∃ r, r ∈ rows (data_loader_df
                           (startup Scenario.csv_paths Scenario.csv_fs))
               ∧ companyName r = x)
  ∧ (∀ x, x ∈ ["CREDICORP LTD."; "OTHER"] → normalize x = x).
Proof.
  apply (get_companies_distinct_normalized Scenario.csv_paths
           Scenario.csv_fs ["CREDICORP LTD."; "OTHER"]).
  vm_compute. reflexivity.
Defined.

(** X17.  [/health] and [/api/companies] agree: [data_loaded] is true
    exactly when [get_companies] answers with a list, and false exactly
    when it answers 503. *)
Theorem health_agrees_with_companies (g : Globals) :
  ∃ h, health_check g = Ok h
    ∧ (data_loaded h = true ↔ ∃ l, get_companies g = Ok l)
    ∧ (data_loaded h = false ↔ status_code (get_companies g) = 503).
Proof.
  unfold health_check, get_companies. eexists. split; [done|]. simpl.
  destruct (empty (data_loader_df g)); simpl; split; split;
    try done; try (by eexists); by intros [? ?].
Qed.

(** ** [get_credicorp_data] *)

Lemma filter_fmap {A B} (f : A → B) (P : B → Prop)
    `{!∀ y, Decision (P y)} (l : list A) :
  filter P (f <$> l) = f <$> filter (λ x, P (f x)) l.
Proof.
  induction l as [|x l IH]; [done|].
  rewrite fmap_cons, !filter_cons. case_decide; [|done].
  by rewrite fmap_cons, IH.
Qed.

Lemma filter_comm {A} (P Q : A → Prop)
    `{!∀ x, Decision (P x), !∀ x, Decision (Q x)} (l : list A) :
  filter P (filter Q l) = filter Q (filter P l).
Proof. rewrite !list_filter_filter. apply list_filter_iff. tauto. Qed.

Section CredicorpMore.

Variable datetime_timestamp_NaT : result Z.
Variable g : Globals.

Local Abbreviation in_window now :=
  (λ r : Row, now - timedelta_days 30 ≤ timestamp r).

(** X18.  [/api/credicorp] answers 200 or 500 and nothing else: the 404
    of an unknown ticker and every other failure reach the caller as 500,
    and a service without data answers 500 as well, not 503. *)
Theorem get_credicorp_data_status (now : Z) :
  (status_code (get_credicorp_data datetime_timestamp_NaT g now) = 200
   ∨ status_code (get_credicorp_data datetime_timestamp_NaT g now) = 500)
  ∧ (rows (data_loader_df g) = [] →
     status_code (get_credicorp_data datetime_timestamp_NaT g now) = 500).
Proof.
  split.
  - destruct (get_credicorp_data datetime_timestamp_NaT g now)
      as [view|e] eqn:Hres; [by left|].
    apply get_credicorp_data_Raise in Hres as [detail ->]. by right.
  - intros Hrows. rewrite get_credicorp_data_no_match; [done|].
    unfold credicorp_rows. by rewrite Hrows.
Qed.


(** X20.  [realtime] does not depend on when the request is made: two
    answers over the same snapshot carry the same [realtime]. *)
Theorem realtime_independent_of_now (now1 now2 : Z) (view1 view2 : View) :
  get_credicorp_data datetime_timestamp_NaT g now1 = Ok view1 →
  get_credicorp_data datetime_timestamp_NaT g now2 = Ok view2 →
  realtime view1 = realtime view2.
Proof.
  intros (latest1 & ? & ? & Hlast1 & _ & _ & ->)%get_credicorp_data_Ok.
  intros (latest2 & ? & ? & Hlast2 & _ & _ & ->)%get_credicorp_data_Ok.
  cbn [realtime]. congruence.
Qed.

Lemma historical_Permutation (now : Z) (view : View) :
  get_credicorp_data datetime_timestamp_NaT g now = Ok view →
  historical view
  ≡ₚ filter complete
       (to_quote g <$> filter (in_window now) (credicorp_rows g)).
Proof.
  intros (latest & ? & ? & _ & _ & _ & ->)%get_credicorp_data_Ok.
  cbn [historical]. by rewrite sort_values_Permutation.
Qed.

(** X21.  A later request returns what the earlier one returned, less the
    entries that have left the window: [historical] at [now2] is, up to
    order, [historical] at [now1] filtered by the cutoff of [now2]. *)
Theorem historical_shrinks_with_time (now1 now2 : Z) (view1 view2 : View) :
  now1 ≤ now2 →
  get_credicorp_data datetime_timestamp_NaT g now1 = Ok view1 →
  get_credicorp_data datetime_timestamp_NaT g now2 = Ok view2 →
  historical view2
  ≡ₚ filter (λ q, now2 - timedelta_days 30 ≤ quote_timestamp q)
       (historical view1).
Proof.
  intros Hle Hview1%historical_Permutation Hview2%historical_Permutation.
  rewrite Hview1, Hview2.
  rewrite (filter_comm
             (λ q, now2 - timedelta_days 30 ≤ quote_timestamp q)
             (λ q, complete q)).
  rewrite !filter_fmap.
  rewrite (list_filter_filter_l
             (λ r, now2 - timedelta_days 30 ≤ quote_timestamp (to_quote g r))
             (in_window now1)); [done|].
  intros r. rewrite to_quote_timestamp. lia.
Qed.

End CredicorpMore.

Lemma realtime_independent_of_now_witness :
  ∃ view1 view2,
    get_credicorp_data Scenario.NaT_raises
      (startup Scenario.csv_paths Scenario.csv_fs) Scenario.request_time
    = Ok view1
    ∧ get_credicorp_data Scenario.NaT_raises
        (startup Scenario.csv_paths Scenario.csv_fs)
        (Scenario.request_time + 28 * Scenario.day)
      = Ok view2
    ∧ realtime view1 = realtime view2.
Proof.
  eexists _, _. split; [vm_compute; reflexivity|].
  split; [vm_compute; reflexivity|].
  eapply (realtime_independent_of_now Scenario.NaT_raises
            (startup Scenario.csv_paths Scenario.csv_fs)
            Scenario.request_time
            (Scenario.request_time + 28 * Scenario.day));
    vm_compute; reflexivity.
Defined.

Lemma historical_shrinks_with_time_witness :
  ∃ view1 view2,
    get_credicorp_data Scenario.NaT_raises
      (startup Scenario.csv_paths Scenario.csv_fs) Scenario.request_time
    = Ok view1
    ∧ get_credicorp_data Scenario.NaT_raises
        (startup Scenario.csv_paths Scenario.csv_fs)
        (Scenario.request_time + 28 * Scenario.day)
      = Ok view2
    ∧ historical view2
      ≡ₚ filter (λ q, Scenario.request_time + 28 * Scenario.day
                      - timedelta_days 30 ≤ quote_timestamp q)
           (historical view1).
Proof.
  eexists _, _. split; [vm_compute; reflexivity|].
  split; [vm_compute; reflexivity|].
  eapply (historical_shrinks_with_time Scenario.NaT_raises
            (startup Scenario.csv_paths Scenario.csv_fs)
            Scenario.request_time
            (Scenario.request_time + 28 * Scenario.day));
    [vm_compute; discriminate | vm_compute; reflexivity
    | vm_compute; reflexivity].
Defined.

(** ** Matching the ticker *)

Lemma rstrip_app_space (s : string) (c : Ascii.ascii) :
  isspace c = true → rstrip (s +:+ String c "") = rstrip s.
Proof.
  intros Hc. induction s as [|a s IH]; simpl.
  - by rewrite Hc.
  - change (String.app s (String c "")) with (s +:+ String c "").
    by rewrite IH.
Qed.

Lemma strip_cons_space (s : string) (c : Ascii.ascii) :
  isspace c = true → strip (String c s) = strip s.
Proof.
  intros Hc. unfold strip. simpl.
  destruct (rstrip s) as [|a t]; simpl; by rewrite Hc.
Qed.

(** X22.  [normalize] does not see the case of ASCII letters, nor a blank
    before or after the name. *)
Theorem normalize_ignores_case_and_blanks (s : string) (c : Ascii.ascii) :
  normalize (upper s) = normalize s
  ∧ (isspace c = true →
     normalize (String c s) = normalize s
     ∧ normalize (s +:+ String c "") = normalize s).
Proof.
  unfold normalize. split.
  - unfold strip. by rewrite rstrip_upper, lstrip_upper, upper_upper.
  - intros Hc. split.
    + by rewrite strip_cons_space.
    + unfold strip. by rewrite rstrip_app_space.
Qed.



End BackEndMore.

(** * Properties of the Yahoo Finance fetcher *)

Module YFinanceSpec.
Import Py Scraper YFinance ScraperSpec.

Lemma NoDup_fmap_finer {A B C} (f : A → B) (h : A → C) (l : list A) :
  (∀ x y, f x = f y → h x = h y) → NoDup (h <$> l) → NoDup (f <$> l).
Proof.
  intros Hfiner. induction l as [|x l IH]; [constructor|].
  rewrite !fmap_cons, !NoDup_cons. intros [Hx Hl]. split; [|by apply IH].
  intros (y & Hxy & Hy)%list_elem_of_fmap.
  apply Hx, list_elem_of_fmap. exists y. split; [by apply Hfiner|done].
Qed.

Section Fetcher.

Variable round2 : Q → Q.
Variable yf : string → download.

Lemma ticker_row_Some (ticker : string) :
  has_history (yf ticker) = true
  → ∃ r, ticker_row round2 ticker (yf ticker) = Some r
         ∧ cell r "Ticker" = SStr ticker
         ∧ "Date" ∈ dom r ∧ "Ticker" ∈ dom r.
Proof.
  unfold ticker_row. destruct (yf ticker) as [e|[|bar history] info]; try done.
  intros _. destruct (list.last (bar :: history)) as [b|] eqn:Hlast.
  2: { by apply last_None in Hlast. }
  eexists. split; [done|]. unfold cell.
  split; [by simplify_map_eq|]. rewrite !elem_of_dom.
  split; by simplify_map_eq.
Qed.

Lemma ticker_row_None (ticker : string) :
  has_history (yf ticker) = false →
  ticker_row round2 ticker (yf ticker) = None.
Proof.
  unfold ticker_row. by destruct (yf ticker) as [e|[|bar history] info].
Qed.

Lemma ticker_rows (l : list string) :
  (λ r, cell r "Ticker")
    <$> omap (λ ticker, ticker_row round2 ticker (yf ticker)) l
  = SStr <$> filter (λ ticker, has_history (yf ticker)) l.
Proof.
  induction l as [|t l IH]; [done|].
  rewrite filter_cons.
  change (omap (λ ticker, ticker_row round2 ticker (yf ticker)) (t :: l))
    with (match ticker_row round2 t (yf t) with
          | Some r =>
              r :: omap (λ ticker, ticker_row round2 ticker (yf ticker)) l
          | None => omap (λ ticker, ticker_row round2 ticker (yf ticker)) l
          end).
  destruct (has_history (yf t)) eqn:Hh.
  - destruct (ticker_row_Some t Hh) as (r & -> & Hcell & _).
    rewrite decide_True by done.
    by rewrite !fmap_cons, Hcell, IH.
  - rewrite (ticker_row_None t Hh).
    rewrite decide_False by (by intros []). exact IH.
Qed.

(** X24.  [get_ticker_data] has one row for each ticker whose download
    came back with a history, in the order of [tickers], and none for the
    others: an exception or an empty history on one ticker costs only that
    ticker.  No two rows share their ([Date], [Ticker]). *)
Theorem get_ticker_data_one_row_per_ticker :
  (λ r, cell r "Ticker") <$> rows (get_ticker_data round2 yf)
  = SStr <$> filter (λ ticker, has_history (yf ticker)) tickers
  ∧ NoDup (key_of price_key <$> rows (get_ticker_data round2 yf)).
Proof.
  split; [apply ticker_rows|].
  apply (NoDup_fmap_finer _ (λ r, cell r "Ticker")).
  { intros x y. unfold key_of, price_key. simpl. congruence. }
  unfold get_ticker_data, DataFrame_of. cbn [rows]. rewrite ticker_rows.
  apply NoDup_fmap_2; [intros ?? [=]; done|].
  apply NoDup_filter. unfold tickers.
  apply (bool_decide_unpack (NoDup _)). vm_compute. exact I.
Qed.


(** X25.  A pass of [main] keeps the price file free of repeated
    ([Date], [Ticker]) keys, also when the pass creates the file: if the
    file is absent or holds a table without repeated keys before the
    pass, so it is after it, whether the pass ends or raises. *)
Theorem main_pass_keeps_unique_keys (env : Env) (w : World) :
  disk w = Missing
  ∨ (∃ df, disk w = Stored df ∧ NoDup (key_of price_key <$> rows df)) →
  disk (main_pass round2 env yf w).2 = Missing
  ∨ (∃ df, disk (main_pass round2 env yf w).2 = Stored df
           ∧ NoDup (key_of price_key <$> rows df)).
Proof.
  intros Hinv. destruct w as [d p t]. simpl in Hinv.
  unfold main_pass, mbind, IO_bind.
  destruct (empty (get_ticker_data round2 yf)) eqn:Hempty; [done|].
  unfold save_to_csv, mbind, IO_bind, path_exists, read_csv, lift, to_csv,
    drop_duplicates, mbind, result_bind, bind.
  destruct Hinv as [-> | (df & -> & Hnodup)]; simpl.
  - destruct (writable env); simpl; [|by left].
    right. eexists. split; [done|].
    apply get_ticker_data_one_row_per_ticker.
  - destruct (check_columns price_key _) as [[]|e]; simpl.
    + destruct (writable env); simpl; right; eexists; split; try done.
      simpl. apply keep_last_NoDup.
    + right. by exists df.
Qed.


End Fetcher.

Lemma main_pass_keeps_unique_keys_witness :
  disk (main_pass Qred Scenario.quiet_env Scenario.yf_partial
          (Scenario.world_with Missing)).2 = Missing
  ∨ (∃ df, disk (main_pass Qred Scenario.quiet_env Scenario.yf_partial
                   (Scenario.world_with Missing)).2 = Stored df
           ∧ NoDup (key_of price_key <$> rows df)).
Proof.
  apply (main_pass_keeps_unique_keys Qred Scenario.yf_partial
           Scenario.quiet_env (Scenario.world_with Missing)).
  left. reflexivity.
Defined.

(** With ILF alone answered, the pass creates the file with its row. *)
Example main_pass_partial_download :
  ∃ df,
    main_pass Qred Scenario.quiet_env Scenario.yf_partial
      (Scenario.world_with Missing)
    = (Ok (), {| disk := Stored df; posts := 0;
                 trace := [Sleep 7200; ToCsv df] |})
    ∧ (λ r, cell r "Ticker") <$> rows df = [SStr "ILF"].
Proof. eexists. split; vm_compute; reflexivity. Qed.

End YFinanceSpec.

(** * Properties of the hourly BAP download *)

Module BapSpec.
Import Py Bap.

Section Job.

Variable history : nat → result Frame.
Variable writable : bool.

Lemma fetch_bap_data_appends (st : State) (csv : Csv) :
  file st = Some csv →
  ∃ added,
    file (fetch_bap_data history writable st)
    = Some {| header := header csv; lines := lines csv ++ added |}.
Proof.
  intros Hfile. unfold fetch_bap_data.
  destruct (history (downloads st)) as [data|e]; simpl; rewrite Hfile.
  - destruct writable.
    + by eexists.
    + exists []. rewrite app_nil_r. by destruct csv.
  - exists []. rewrite app_nil_r. by destruct csv.
Qed.

(** X27.  However often the scheduler runs the job, it downloads at most
    four times: run [n] times from a counter [c] of at most 4, the job
    has downloaded [min (c + n) 4 - c] times and the counter stands at
    [min (c + n) 4]. *)
Theorem run_job_at_most_four (n : nat) (st : State) :
  (execution_count st ≤ 4)%nat →
  execution_count (run_job history writable n st)
  = Nat.min (execution_count st + n) 4
  ∧ downloads (run_job history writable n st)
    = (downloads st
       + (Nat.min (execution_count st + n) 4 - execution_count st))%nat.
Proof.
  revert st. induction n as [|n IH]; intros st Hle; simpl.
  { rewrite Nat.add_0_r, Nat.min_l by done. split; lia. }
  unfold limited_execution. case_bool_decide as Hlt; simpl.
  - assert (downloads (fetch_bap_data history writable st)
            = S (downloads st)) as Hd0.
    { unfold fetch_bap_data. by destruct (history (downloads st)). }
    assert (execution_count (fetch_bap_data history writable st)
            = execution_count st) as Hc0.
    { unfold fetch_bap_data. by destruct (history (downloads st)). }
    match goal with
    | |- context [run_job _ _ n ?s] =>
        destruct (IH s) as [Hc Hd]; [simpl; lia|];
        rewrite Hc, Hd; cbn [execution_count downloads]
    end.
    rewrite Hc0, Hd0.
    replace (S (execution_count st) + n)%nat
      with (execution_count st + S n)%nat by lia.
    split; [done|].
    destruct (Nat.min_spec (execution_count st + S n) 4)
      as [[? ->]|[? ->]]; lia.
  - destruct (IH st Hle) as [Hc Hd]. rewrite Hc, Hd.
    rewrite !Nat.min_r by lia. split; lia.
Qed.

(** X28.  The job only ever adds lines at the end of the file: once the
    file exists, its header and the lines it holds stay as they are,
    whatever is downloaded later. *)
Theorem run_job_appends (n : nat) (st : State) (csv : Csv) :
  file st = Some csv →
  ∃ added,
    file (run_job history writable n st)
    = Some {| header := header csv; lines := lines csv ++ added |}.
Proof.
  revert st csv. induction n as [|n IH]; intros st csv Hfile; simpl.
  { exists []. rewrite app_nil_r, Hfile. by destruct csv. }
  unfold limited_execution. case_bool_decide; simpl; [|by apply IH].
  destruct (fetch_bap_data_appends st csv Hfile) as [added1 Hstep].
  match goal with
  | |- context [run_job _ _ n ?s] =>
      destruct (IH s {| header := header csv;
                        lines := lines csv ++ added1 |}) as [added2 Hrest]
  end; [done|].
  exists (added1 ++ added2). rewrite Hrest. simpl. by rewrite app_assoc.
Qed.

End Job.

Lemma run_job_at_most_four_witness :
  execution_count
    (run_job Scenario.bap_history true 7 Scenario.bap_start)
  = Nat.min (0 + 7) 4
  ∧ downloads (run_job Scenario.bap_history true 7 Scenario.bap_start)
    = (0 + (Nat.min (0 + 7) 4 - 0))%nat.
Proof.
  apply (run_job_at_most_four Scenario.bap_history true 7
           Scenario.bap_start).
  simpl. lia.
Defined.

Lemma run_job_appends_witness :
  ∃ added,
    file (run_job Scenario.bap_history true 7 Scenario.bap_running)
    = Some {| header := header Scenario.bap_csv;
              lines := lines Scenario.bap_csv ++ added |}.
Proof.
  apply (run_job_appends Scenario.bap_history true 7 Scenario.bap_running
           Scenario.bap_csv).
  reflexivity.
Defined.

End BapSpec.

(** * Properties of the log housekeeping *)

Module LoggerSpec.
Import Py Logger.

Section Clean.

Variable cutoff : Q.

Local Abbreviation doomed :=
  (λ ne : string * entry, matches_log ne.1 && older cutoff ne.2).

Lemma clean_loop_files (listing : list (string * entry)) (deleted : nat) :
  Forall (λ ne, doomed ne → ∃ t, ne.2 = File t) listing →
  clean_loop cutoff listing deleted
  = (Ok (deleted + length (filter doomed listing))%nat,
     filter (λ ne, ¬ doomed ne) listing).
Proof.
  revert deleted. induction listing as [|[name e] rest IH];
    intros deleted Hfiles; simpl.
  { by rewrite Nat.add_0_r. }
  apply Forall_cons in Hfiles as [He Hrest]. simpl in He.
  rewrite !filter_cons. simpl.
  destruct (matches_log name && older cutoff e) eqn:Hdoomed; simpl.
  - destruct He as [t ->]; [done|].
    rewrite IH by done. by rewrite Nat.add_succ_comm.
  - by rewrite IH.
Qed.

Lemma clean_loop_keeps (listing : list (string * entry)) (deleted : nat) :
  (clean_loop cutoff listing deleted).2 `sublist_of` listing
  ∧ ∀ ne, ne ∈ listing → ¬ doomed ne →
          ne ∈ (clean_loop cutoff listing deleted).2.
Proof.
  revert deleted. induction listing as [|[name e] rest IH];
    intros deleted; simpl.
  { split; [done|]. by intros ne ?%not_elem_of_nil. }
  destruct (matches_log name && older cutoff e) eqn:Hdoomed; simpl.
  - destruct e as [t|t].
    + destruct (IH (S deleted)) as [Hsub Hkeep]. split.
      * by apply sublist_cons.
      * intros ne [->|Hin]%elem_of_cons Hnot.
        -- destruct Hnot. simpl. by rewrite Hdoomed.
        -- by apply Hkeep.
    + split; [done|]. by intros.
  - destruct (IH deleted) as [Hsub Hkeep].
    destruct (clean_loop cutoff rest deleted) as [r rest'] eqn:Hloop.
    simpl in *. split.
    + by apply sublist_skip.
    + intros ne [->|Hin]%elem_of_cons Hnot; [by left|].
      right. by apply Hkeep.
Qed.

End Clean.

(** X29.  When no directory is among the old entries matched by
    ["*.log*"], [clean_old_logs] removes exactly the matching entries
    whose [st_mtime] lies before [now - days * 86400], leaves the others
    in place, and returns how many it removed. *)
Theorem clean_old_logs_removes_old_logs
    (now : Q) (listing : list (string * entry)) (days : Z) :
  let doomed := λ ne : string * entry,
    matches_log ne.1
    && older (now - inject_Z days * 86400)%Q ne.2 in
  Forall (λ ne, doomed ne → ∃ t, ne.2 = File t) listing →
  clean_old_logs now (Some listing) days
  = (Ok (length (filter doomed listing)),
     Some (filter (λ ne, ¬ doomed ne) listing)).
Proof.
  intros doomed Hfiles. unfold clean_old_logs.
  by rewrite (clean_loop_files _ listing 0 Hfiles).
Qed.

(** X30.  Whatever the directory holds, and also when [clean_old_logs]
    stops on an exception, it creates nothing, reorders nothing, and
    leaves in place every entry that does not match ["*.log*"] or whose
    [st_mtime] is not before the cutoff; a directory that does not exist
    gives 0 and stays absent. *)
Theorem clean_old_logs_keeps_recent
    (now : Q) (log_dir : option (list (string * entry))) (days : Z) :
  match log_dir, (clean_old_logs now log_dir days).2 with
  | Some listing, Some listing' =>
      listing' `sublist_of` listing
      ∧ ∀ name e, (name, e) ∈ listing →
          matches_log name = false
          ∨ (now - inject_Z days * 86400 <= st_mtime e)%Q →
          (name, e) ∈ listing'
  | None, None => clean_old_logs now log_dir days = (Ok 0%nat, None)
  | _, _ => False
  end.
Proof.
  destruct log_dir as [listing|]; [|done].
  unfold clean_old_logs.
  destruct (clean_loop_keeps (now - inject_Z days * 86400)%Q listing 0)
    as [Hsub Hkeep].
  destruct (clean_loop _ listing 0) as [r listing'] eqn:Hloop. simpl in *.
  split; [done|]. intros name e Hin Hsafe. apply Hkeep; [done|].
  simpl. destruct Hsafe as [-> | Hrecent]; [by intros []|].
  unfold older. destruct (Qlt_le_dec _ _) as [Hlt|_].
  - exfalso. by eapply Qlt_not_le.
  - rewrite andb_false_r. by intros [].
Qed.

Lemma clean_old_logs_removes_old_logs_witness :
  clean_old_logs (100 * 86400)%Q (Some Scenario.log_listing) 30
  = (Ok (length
           (filter (λ ne : string * entry,
                      matches_log ne.1
                      && older (100 * 86400 - inject_Z 30 * 86400)%Q ne.2)
              Scenario.log_listing)),
     Some (filter (λ ne : string * entry,
                     ¬ (matches_log ne.1
                        && older (100 * 86400 - inject_Z 30 * 86400)%Q ne.2))
             Scenario.log_listing)).
Proof.
  apply (clean_old_logs_removes_old_logs (100 * 86400)%Q
           Scenario.log_listing 30).
  repeat constructor; simpl; intros _; by eexists.
Defined.

(** The two old logs go, the recent log and the text file stay. *)
Example clean_old_logs_example :
  clean_old_logs (100 * 86400)%Q (Some Scenario.log_listing) 30
  = (Ok 2%nat,
     Some [ ("fetcher_20240401.log", File (95 * 86400)%Q);
            ("notes.txt", File (5 * 86400)%Q) ]).
Proof. vm_compute. reflexivity. Qed.

End LoggerSpec.
